(** * AI code editor backend: request broker and generation router

    A shallow embedding of [src/backend/ai_engine.py] (class [AIEngine]) and
    [src/backend/api.py] (class [AICodeEditorBackend]) together with the
    properties of the backend selection and fallback policy.

    Conventions of the embedding:
    - a Python [str] is a [string]; each character is a code point below 256,
      which is the range on which [strip], [lower] and [repr] are written out;
    - a value decoded from JSON is a [pyval] (floats are left out);
    - a Python [dict] with string keys that is only looked up is a [gmap];
      a decoded JSON object keeps its insertion order as an association list;
    - the outside world (remote services, the llama.cpp process, temporary
      files, the clock, the websocket) is an [Env] of oracles, and the parts
      of it the program changes are threaded through a state monad [M]
      whose computations either return or raise a Python exception. *)

From Stdlib Require Import ZArith String Ascii DecimalString.
From stdpp Require Import base option list gmap strings.

Open Scope string_scope.

(** ** Python strings *)

Module Str.

Definition nl : ascii := ascii_of_nat 10.

Definition code (c : ascii) : N := N_of_ascii c.

Definition between (lo hi n : N) : bool := ((lo <=? n) && (n <=? hi))%N.

(** [str.isspace] on one character (code points below 256). *)
Definition is_space (c : ascii) : bool :=
  let n := code c in
  between 9 13 n || between 28 32 n || (n =? 133)%N || (n =? 160)%N.

(** [str.lower] on one character (code points below 256). *)
Definition lower_char (c : ascii) : ascii :=
  let n := code c in
  if between 65 90 n || (between 192 222 n && negb (n =? 215)%N)
  then ascii_of_N (n + 32) else c.

Fixpoint lower (s : string) : string :=
  match s with
  | EmptyString => EmptyString
  | String c s' => String (lower_char c) (lower s')
  end.

Fixpoint lstrip (s : string) : string :=
  match s with
  | EmptyString => EmptyString
  | String c s' => if is_space c then lstrip s' else s
  end.

Fixpoint rstrip (s : string) : string :=
  match s with
  | EmptyString => EmptyString
  | String c s' =>
      match rstrip s' with
      | EmptyString => if is_space c then EmptyString else String c EmptyString
      | r => String c r
      end
  end.

(** [s.strip()] *)
Definition strip (s : string) : string := rstrip (lstrip s).

(** Some character of [s] is not white space. *)
Fixpoint has_nonspace (s : string) : bool :=
  match s with
  | EmptyString => false
  | String c s' => negb (is_space c) || has_nonspace s'
  end.

(** Truth value of a string: non-empty. *)
Definition truthy (s : string) : bool :=
  match s with EmptyString => false | _ => true end.

(** [s.startswith(p)] *)
Definition startswith (s p : string) : bool := String.prefix p s.

(** [needle in hay] *)
Fixpoint contains (needle hay : string) : bool :=
  String.prefix needle hay
  || match hay with
     | EmptyString => false
     | String _ hay' => contains needle hay'
     end.

(** [s[:n]] *)
Fixpoint take (n : nat) (s : string) : string :=
  match n, s with
  | S n', String c s' => String c (take n' s')
  | _, _ => EmptyString
  end.

(** [s.split(sep)] for a one-character separator: never the empty list. *)
Fixpoint split (sep : ascii) (s : string) : list string :=
  match s with
  | EmptyString => [EmptyString]
  | String c s' =>
      if Ascii.eqb c sep then EmptyString :: split sep s'
      else match split sep s' with
           | l :: ls => String c l :: ls
           | [] => [String c EmptyString]
           end
  end.

(** [sep.join(l)] *)
Fixpoint join (sep : string) (l : list string) : string :=
  match l with
  | [] => EmptyString
  | [x] => x
  | x :: l' => x ++ sep ++ join sep l'
  end.

(** The text of a multi-line literal, given line by line. *)
Definition text (lines : list string) : string :=
  join (String nl EmptyString) lines.

Definition of_Z (z : Z) : string := NilZero.string_of_int (Z.to_int z).

Definition hex_digit (n : N) : ascii :=
  if (n <? 10)%N then ascii_of_N (48 + n) else ascii_of_N (87 + n).

(** The escape [\xHH] of a character. *)
Definition hex_escape (c : ascii) : string :=
  let n := code c in
  String "\" (String "x"
    (String (hex_digit (n / 16)) (String (hex_digit (n mod 16)) EmptyString))).

Definition printable (c : ascii) : bool :=
  let n := code c in
  between 32 126 n || (between 161 255 n && negb (n =? 173)%N).

(** One character of [repr(s)] inside the quote character [q]. *)
Definition repr_char (q c : ascii) : string :=
  if Ascii.eqb c q || Ascii.eqb c "\" then String "\" (String c EmptyString)
  else if Ascii.eqb c (ascii_of_nat 9) then "\t"
  else if Ascii.eqb c nl then "\n"
  else if Ascii.eqb c (ascii_of_nat 13) then "\r"
  else if printable c then String c EmptyString
  else hex_escape c.

Fixpoint repr_body (q : ascii) (s : string) : string :=
  match s with
  | EmptyString => EmptyString
  | String c s' => repr_char q c ++ repr_body q s'
  end.

Definition squote : ascii := "'".
Definition dquote : ascii := ascii_of_nat 34.

(** [repr(s)]: single quotes, unless the string has a single quote and no
    double quote. *)
Definition repr (s : string) : string :=
  let q :=
    if contains (String squote EmptyString) s
       && negb (contains (String dquote EmptyString) s)
    then dquote else squote in
  String q (repr_body q s ++ String q EmptyString).

End Str.

(** ** Python values as they come out of [json.loads] *)

#[local] Set Warnings "-register-all".

Inductive pyval : Type :=
  | PyNone
  | PyBool (b : bool)
  | PyInt (z : Z)
  | PyStr (s : string)
  | PyList (l : list pyval)
  | PyDict (d : list (string * pyval)).

Module Py.

(** [repr(v)] *)
Fixpoint repr (v : pyval) : string :=
  match v with
  | PyNone => "None"
  | PyBool true => "True"
  | PyBool false => "False"
  | PyInt z => Str.of_Z z
  | PyStr s => Str.repr s
  | PyList l => "[" ++ Str.join ", " (map repr l) ++ "]"
  | PyDict d =>
      "{" ++ Str.join ", "
               (map (fun kv => Str.repr (fst kv) ++ ": " ++ repr (snd kv)) d)
          ++ "}"
  end.

(** [str(v)], which is what an f-string field [{v}] renders. *)
Definition str (v : pyval) : string :=
  match v with
  | PyStr s => s
  | _ => repr v
  end.

(** [type(v).__name__] *)
Definition type_name (v : pyval) : string :=
  match v with
  | PyNone => "NoneType"
  | PyBool _ => "bool"
  | PyInt _ => "int"
  | PyStr _ => "str"
  | PyList _ => "list"
  | PyDict _ => "dict"
  end.

(** [v == s] for a string literal [s]. *)
Definition eq_str (v : pyval) (s : string) : bool :=
  match v with
  | PyStr s' => String.eqb s' s
  | _ => false
  end.

Definition hashable (v : pyval) : bool :=
  match v with
  | PyList _ | PyDict _ => false
  | _ => true
  end.

(** Lookup in a decoded JSON object (its keys are distinct: [json.loads]
    keeps one value per key). *)
Fixpoint assoc (k : string) (d : list (string * pyval)) : option pyval :=
  match d with
  | [] => None
  | (k', v) :: d' => if String.eqb k' k then Some v else assoc k d'
  end.

End Py.

(** ** Exceptions and results *)

(** The exception classes the two files tell apart in their [except]
    clauses; every other subclass of [Exception] is [OtherError]. *)
Inductive exn_class : Type :=
  | ImportError
  | TimeoutExpired
  | JSONDecodeError
  | AttributeError
  | TypeError
  | OtherError.

(** An exception: its class and the text of [str(e)]. *)
Record pyexn : Type := Exn { exn_kind : exn_class; exn_str : string }.

Inductive Result (A : Type) : Type :=
  | Ok (a : A)
  | Raise (e : pyexn).
Arguments Ok {A} a.
Arguments Raise {A} e.

Definition is_timeout (e : pyexn) : bool :=
  match exn_kind e with TimeoutExpired => true | _ => false end.
Definition is_import_error (e : pyexn) : bool :=
  match exn_kind e with ImportError => true | _ => false end.
Definition is_json_error (e : pyexn) : bool :=
  match exn_kind e with JSONDecodeError => true | _ => false end.

(** [d.get(k, dflt)] on a dict with string keys: an unhashable key raises. *)
Definition dict_get {V : Type} (d : gmap string V) (k : pyval) (dflt : V)
  : Result V :=
  match k with
  | PyStr s => Ok (default dflt (d !! s))
  | PyList _ | PyDict _ =>
      Raise (Exn TypeError ("unhashable type: '" ++ Py.type_name k ++ "'"))
  | _ => Ok dflt
  end.

(** [v.get(k, dflt)] on a decoded value: only a dict has the method. *)
Definition value_get (v : pyval) (k : string) (dflt : pyval) : Result pyval :=
  match v with
  | PyDict d => Ok (default dflt (Py.assoc k d))
  | _ =>
      Raise (Exn AttributeError
               ("'" ++ Py.type_name v ++ "' object has no attribute 'get'"))
  end.

(** ** The outside world *)

(** What [subprocess.run] returns when the process ends in time. *)
Record completed : Type :=
  Completed { returncode : Z; stdout : string; stderr : string }.

(** Calls that leave the process, kept in order (ghost state: it records
    which backend was entered, nothing reads it). *)
Inductive event : Type :=
  | OpenAICall (key : option string) (prompt : string)
  | GroqCall (key : option string) (prompt : string)
  | LlamaRun (cmd : list (option string)).

Definition is_remote (ev : event) : bool :=
  match ev with LlamaRun _ => false | _ => true end.

(** The part of the world the program changes. *)
Record State : Type := MkState {
  files : gmap string string;        (* scratch files: path to content *)
  tmp_serial : nat;                  (* temporary files created so far *)
  trace : list event;
  outbox : list (gmap string pyval); (* messages sent on the websocket *)
  sends : nat                        (* calls of websocket.send so far *)
}.

(** The part of the world the program only asks. Each oracle stands for
    library code outside the repository; a request consults each at most
    once, so a function of the arguments covers every behaviour. *)
Record Env : Type := MkEnv {
  (* import openai; openai.Completion.create(...).choices[0].text *)
  openai_create : option string -> string -> Result string;
  (* import requests; post, raise_for_status, json()["choices"][0]["text"] *)
  groq_post : option string -> string -> Result string;
  (* tempfile.NamedTemporaryFile(mode='w', suffix='.txt', delete=False) *)
  mkstemp : nat -> Result string;
  (* f.write(prompt): the error it raises, if any *)
  write_error : string -> string -> option pyexn;
  (* subprocess.run(cmd, capture_output=True, text=True, timeout=60):
     a run over 60 seconds raises an exception of class TimeoutExpired *)
  subprocess_run : list (option string) -> gmap string string -> Result completed;
  (* datetime.now().isoformat() *)
  now_isoformat : string;
  (* json.loads(message) *)
  json_loads : string -> Result pyval;
  (* websocket.send: the error raised by the call number n, if any *)
  send_error : nat -> option pyexn
}.

(** ** The monad of the program: state and exceptions *)

Definition M (A : Type) : Type := State -> Result A * State.

#[export] Instance M_ret : MRet M := fun A a st => (Ok a, st).

#[export] Instance M_bind : MBind M := fun A B f m st =>
  match m st with
  | (Ok a, st') => f a st'
  | (Raise e, st') => (Raise e, st')
  end.

Definition raise {A : Type} (e : pyexn) : M A := fun st => (Raise e, st).

Definition lift {A : Type} (r : Result A) : M A := fun st => (r, st).

(** [try: body  except Exception as e: handler e] *)
Definition try_except {A : Type} (body : M A) (handler : pyexn -> M A) : M A :=
  fun st =>
    match body st with
    | (Ok a, st') => (Ok a, st')
    | (Raise e, st') => handler e st'
    end.

Definition get_files : M (gmap string string) := fun st => (Ok (files st), st).

Definition log_event (ev : event) : M unit := fun st =>
  (Ok tt, MkState (files st) (tmp_serial st) (trace st ++ [ev]) (outbox st)
                  (sends st)).

(** [result m st] and [after m st]: the outcome and the final state. *)
Definition result {A : Type} (m : M A) (st : State) : Result A := fst (m st).
Definition after {A : Type} (m : M A) (st : State) : State := snd (m st).

(** ** ai_engine.py: class AIEngine *)

Record persona_config : Type :=
  Persona { system_prompt : string; style : string }.

#[export] Instance persona_config_inhabited : Inhabited persona_config :=
  populate (Persona "" "").

Definition teacher_config : persona_config :=
  Persona "You are a patient, educational programming teacher. Explain concepts clearly with examples and encourage learning. Use simple language and provide step-by-step explanations."
          "educational".

Definition hacker_config : persona_config :=
  Persona "You are a skilled, efficient hacker-style programmer. Give concise, advanced solutions. Focus on performance, clever tricks, and cutting-edge techniques. Be direct and technical."
          "advanced".

Definition reviewer_config : persona_config :=
  Persona "You are a thorough code reviewer. Analyze code quality, suggest improvements, point out potential issues, and recommend best practices. Be constructive and detailed."
          "analytical".

(** [self.personas] *)
Definition personas : gmap string persona_config :=
  <["teacher" := teacher_config]>
    (<["hacker" := hacker_config]>
       (<["reviewer" := reviewer_config]> ∅)).

(** The fields [__init__] declares. A key is [None] or the text of the
    environment variable. *)
Record AIEngine : Type := MkEngine {
  online_mode_available : bool;
  offline_mode_available : bool;
  openai_api_key : option string;
  groq_api_key : option string;
  llama_model_path : option string;
  llama_executable : option string
}.

(** Truth value of [None] or a string. *)
Definition key_truthy (k : option string) : bool :=
  match k with
  | Some s => Str.truthy s
  | None => false
  end.

(** *** The prompts (the f-string of each method) *)

Definition explain_prompt (pc : persona_config) (code : pyval) : string :=
  Str.text [
    "";
    system_prompt pc;
    "";
    "Please explain the following code:";
    "";
    "```";
    Py.str code;
    "```";
    "";
    "Explain what this code does, how it works, and any important concepts involved.";
    "" ].

Definition translate_prompt (pc : persona_config) (code target_language : pyval)
  : string :=
  Str.text [
    "";
    system_prompt pc;
    "";
    "Please translate the following code to " ++ Py.str target_language ++ ":";
    "";
    "```";
    Py.str code;
    "```";
    "";
    "Provide the translated code and explain any important differences or considerations.";
    "" ].

Definition optimize_prompt (pc : persona_config) (code : pyval) : string :=
  Str.text [
    "";
    system_prompt pc;
    "";
    "Please optimize the following code for better performance, readability, and maintainability:";
    "";
    "```";
    Py.str code;
    "```";
    "";
    "Provide the optimized version and explain what improvements were made.";
    "" ].

Definition chat_prompt (pc : persona_config) (message : pyval) : string :=
  Str.text [
    "";
    system_prompt pc;
    "";
    "User message: " ++ Py.str message;
    "";
    "Please respond helpfully as a programming assistant.";
    "" ].

Definition fix_error_prompt (pc : persona_config) (code error_message : pyval)
  : string :=
  Str.text [
    "";
    system_prompt pc;
    "";
    "The following code is producing an error:";
    "";
    "Code:";
    "```";
    Py.str code;
    "```";
    "";
    "Error message:";
    "```";
    Py.str error_message;
    "```";
    "";
    "Please analyze the error, explain what's wrong, and provide a corrected version of the code.";
    "" ].

(** *** generate_fallback_response *)

Definition FALLBACK_EXPLAIN : string :=
  Str.text [
    "I'm sorry, but I don't have access to AI services right now. ";
    "            ";
    "To enable AI features:";
    "1. For online mode: Set OPENAI_API_KEY or GROQ_API_KEY environment variable";
    "2. For offline mode: Place a GGML/GGUF model file in the models/ directory and ensure llama.cpp is available";
    "";
    "In the meantime, I can help you with basic code operations through the file explorer and editor." ].

Definition FALLBACK_TRANSLATE : string :=
  Str.text [
    "I can't translate code without AI services, but here are some general tips:";
    "";
    "- Python to JavaScript: Focus on syntax differences (indentation vs braces, def vs function)";
    "- JavaScript to Python: Watch out for variable scoping and type differences";
    "- Java to Python: Consider Python's dynamic typing and simpler syntax";
    "";
    "Please set up AI services for full translation capabilities." ].

Definition FALLBACK_OPTIMIZE : string :=
  Str.text [
    "Without AI services, here are general optimization tips:";
    "";
    "- Remove unused variables and imports";
    "- Use appropriate data structures (lists vs sets vs dicts)";
    "- Avoid nested loops when possible";
    "- Cache expensive operations";
    "- Use list comprehensions for simple transformations";
    "";
    "Set up AI services for detailed, code-specific optimization suggestions." ].

Definition FALLBACK_GENERIC : string :=
  Str.text [
    "I'm currently running in limited mode without AI services.";
    "";
    "To enable full AI capabilities:";
    "1. Set OPENAI_API_KEY or GROQ_API_KEY environment variable for online mode";
    "2. Set up llama.cpp with a local model for offline mode";
    "";
    "I can still help you with file operations, editing, and basic code management." ].

Definition generate_fallback_response (prompt : string) : string :=
  if Str.contains "explain" (Str.lower prompt) then FALLBACK_EXPLAIN
  else if Str.contains "translate" (Str.lower prompt) then FALLBACK_TRANSLATE
  else if Str.contains "optimize" (Str.lower prompt) then FALLBACK_OPTIMIZE
  else FALLBACK_GENERIC.

(** *** generate_offline_response: the cleaning of the output (lines 331-342) *)

(** [line.strip() and not line.startswith(prompt[:50])] *)
Definition starts_response (prompt line : string) : bool :=
  Str.truthy (Str.strip line)
  && negb (Str.startswith line (Str.take 50 prompt)).

(** The [for i, line in enumerate(lines)] loop from index [i] on:
    [response_start] keeps its value unless a line makes the loop break. *)
Fixpoint scan_lines (prompt : string) (lines : list string) (i response_start : nat)
  : nat :=
  match lines with
  | [] => response_start
  | line :: rest =>
      if starts_response prompt line then i
      else scan_lines prompt rest (S i) response_start
  end.

Definition APOLOGY : string :=
  "I apologize, but I couldn't generate a proper response.".

(** The text returned when the process exits with code 0. *)
Definition clean_output (prompt out : string) : string :=
  let response := Str.strip out in
  let lines := Str.split Str.nl response in
  let response_start := scan_lines prompt lines 0 0 in
  let cleaned_response :=
    Str.strip (Str.text (drop response_start lines)) in
  if Str.truthy cleaned_response then cleaned_response else APOLOGY.

Definition TIMEOUT_MESSAGE : string :=
  "Sorry, the request timed out. Please try again with a shorter prompt.".

Section Engine.

Variable env : Env.
Variable self : AIEngine.

(** *** The remote backends *)

Definition call_openai_api (prompt : string) : M string :=
  try_except
    (log_event (OpenAICall (openai_api_key self) prompt);;
     text ← lift (openai_create env (openai_api_key self) prompt);
     mret (Str.strip text))
    (fun e =>
       if is_import_error e
       then raise (Exn OtherError "OpenAI library not available")
       else raise e).

Definition call_groq_api (prompt : string) : M string :=
  try_except
    (log_event (GroqCall (groq_api_key self) prompt);;
     text ← lift (groq_post env (groq_api_key self) prompt);
     mret (Str.strip text))
    (fun e =>
       if is_import_error e
       then raise (Exn OtherError "Requests library not available")
       else raise e).

(** *** The local backend *)

(** [with tempfile.NamedTemporaryFile(mode='w', suffix='.txt',
    delete=False) as f: f.write(prompt); prompt_file = f.name].
    The file exists from its creation on, also when the write fails. *)
Definition write_prompt_file (prompt : string) : M string :=
  fun st =>
    match mkstemp env (tmp_serial st) with
    | Raise e => (Raise e, st)
    | Ok path =>
        let created content :=
          MkState (<[path := content]> (files st)) (S (tmp_serial st))
                  (trace st) (outbox st) (sends st) in
        match write_error env path prompt with
        | Some e => (Raise e, created "")
        | None => (Ok path, created prompt)
        end
    end.

(** [os.unlink(path)] *)
Definition unlink (path : string) : M unit :=
  fun st =>
    match files st !! path with
    | Some _ =>
        (Ok tt, MkState (delete path (files st)) (tmp_serial st)
                        (trace st) (outbox st) (sends st))
    | None =>
        (Raise (Exn OtherError
                  ("[Errno 2] No such file or directory: " ++ Str.repr path)),
         st)
    end.

Definition llama_cmd (prompt_file : string) : list (option string) :=
  [ llama_executable self;
    Some "-m"; llama_model_path self;
    Some "-f"; Some prompt_file;
    Some "-n"; Some "500";
    Some "-t"; Some "4";
    Some "--temp"; Some "0.7";
    Some "--top-p"; Some "0.9";
    Some "--repeat-penalty"; Some "1.1" ].

(** [await asyncio.to_thread(run_llama)] *)
Definition run_llama (cmd : list (option string)) : M completed :=
  log_event (LlamaRun cmd);;
  fs ← get_files;
  lift (subprocess_run env cmd fs).

Definition generate_offline_response (prompt : string) : M string :=
  try_except
    (prompt_file ← write_prompt_file prompt;
     res ← run_llama (llama_cmd prompt_file);
     unlink prompt_file;;
     if (returncode res =? 0)%Z
     then mret (clean_output prompt (stdout res))
     else mret ("Sorry, there was an error processing your request: "
                ++ stderr res))
    (fun e =>
       if is_timeout e then mret TIMEOUT_MESSAGE
       else mret ("Sorry, I encountered an error: " ++ exn_str e)).

(** *** The router *)

(** The [try] block of [generate_online_response]: one credential slot,
    the first that is set. *)
Definition online_attempt (prompt : string) : M string :=
  if key_truthy (openai_api_key self) then call_openai_api prompt
  else if key_truthy (groq_api_key self) then call_groq_api prompt
  else raise (Exn OtherError "No online API keys available").

Definition generate_online_response (prompt : string) : M string :=
  try_except
    (online_attempt prompt)
    (fun e =>
       if offline_mode_available self
       then generate_offline_response prompt
       else mret ("Sorry, I couldn't process your request. Error: "
                  ++ exn_str e)).

Definition generate_response (prompt : string) (mode : pyval) : M string :=
  if Py.eq_str mode "online" && online_mode_available self
  then generate_online_response prompt
  else if Py.eq_str mode "offline" && offline_mode_available self
  then generate_offline_response prompt
  else
    if online_mode_available self then generate_online_response prompt
    else if offline_mode_available self then generate_offline_response prompt
    else mret (generate_fallback_response prompt).

(** *** The five actions *)

Definition explain_code (code persona mode : pyval) : M string :=
  persona_config ← lift (dict_get personas persona (personas !!! "teacher"));
  generate_response (explain_prompt persona_config code) mode.

Definition translate_code (code target_language persona mode : pyval)
  : M string :=
  persona_config ← lift (dict_get personas persona (personas !!! "teacher"));
  generate_response (translate_prompt persona_config code target_language) mode.

Definition optimize_code (code persona mode : pyval) : M string :=
  persona_config ← lift (dict_get personas persona (personas !!! "hacker"));
  generate_response (optimize_prompt persona_config code) mode.

Definition chat (message persona mode : pyval) : M string :=
  persona_config ← lift (dict_get personas persona (personas !!! "teacher"));
  generate_response (chat_prompt persona_config message) mode.

Definition fix_error (code error_message persona mode : pyval) : M string :=
  persona_config ← lift (dict_get personas persona (personas !!! "reviewer"));
  generate_response (fix_error_prompt persona_config code error_message) mode.

End Engine.

(** ** api.py: class AICodeEditorBackend *)

Definition UNKNOWN_ACTION (action : pyval) : string :=
  "Unknown action: " ++ Py.str action
  ++ ". Available actions: explain, translate, optimize, chat, fix_error".

Section Backend.

Variable env : Env.
Variable ai_engine : AIEngine.

(** The dict returned at the end of the [try] block. *)
Definition success_envelope (response : string) (action persona mode : pyval)
  : gmap string pyval :=
  <["success" := PyBool true]>
    (<["response" := PyStr response]>
       (<["action" := action]>
          (<["persona" := persona]>
             (<["mode" := mode]>
                (<["timestamp" := PyStr (now_isoformat env)]> ∅))))).

(** The dict returned by the [except] block. *)
Definition failure_envelope (e : pyexn) (action : pyval) : gmap string pyval :=
  <["success" := PyBool false]>
    (<["error" := PyStr (exn_str e)]>
       (<["action" := action]>
          (<["timestamp" := PyStr (now_isoformat env)]> ∅))).

Definition process_request (action content persona mode options : pyval)
  : M (gmap string pyval) :=
  try_except
    (response ←
       (if Py.eq_str action "explain"
        then explain_code env ai_engine content persona mode
        else if Py.eq_str action "translate"
        then target_language ←
               lift (value_get options "targetLanguage" (PyStr "python"));
             translate_code env ai_engine content target_language persona mode
        else if Py.eq_str action "optimize"
        then optimize_code env ai_engine content persona mode
        else if Py.eq_str action "chat"
        then chat env ai_engine content persona mode
        else if Py.eq_str action "fix_error"
        then error_msg ← lift (value_get options "error" (PyStr ""));
             fix_error env ai_engine content error_msg persona mode
        else mret (UNKNOWN_ACTION action));
     mret (success_envelope response action persona mode))
    (fun e => mret (failure_envelope e action)).

(** [await websocket.send(json.dumps(msg))] *)
Definition ws_send (msg : gmap string pyval) : M unit :=
  fun st =>
    let tried sent :=
      MkState (files st) (tmp_serial st) (trace st) sent (S (sends st)) in
    match send_error env (sends st) with
    | Some e => (Raise e, tried (outbox st))
    | None => (Ok tt, tried (outbox st ++ [msg])%list)
    end.

(** The two error dicts of [handle_message]. *)
Definition error_response (text : string) : gmap string pyval :=
  <["success" := PyBool false]>
    (<["error" := PyStr text]>
       (<["timestamp" := PyStr (now_isoformat env)]> ∅)).

Definition handle_message (message : string) : M unit :=
  try_except
    (data ← lift (json_loads env message);
     (* the argument of logger.info *)
     _ ← lift (value_get data "action" (PyStr "unknown"));
     action ← lift (value_get data "action" PyNone);
     content ← lift (value_get data "content" (PyStr ""));
     persona ← lift (value_get data "persona" (PyStr "teacher"));
     mode ← lift (value_get data "mode" (PyStr "online"));
     options ← lift (value_get data "options" (PyDict []));
     response ← process_request action content persona mode options;
     ws_send response)
    (fun e =>
       if is_json_error e
       then ws_send (error_response "Invalid JSON format")
       else ws_send (error_response (exn_str e))).

End Backend.

(** ** ai_engine.py: initialize, setup_offline_mode, check_executable_in_path *)

(** [s.endswith(suffix)] *)
Definition endswith (s suffix : string) : bool :=
  let n := String.length s in
  let m := String.length suffix in
  (m <=? n)%nat && String.eqb (substring (n - m) m s) suffix.

(** [file.endswith(('.ggml', '.bin', '.gguf'))] *)
Definition is_model_file (file : string) : bool :=
  endswith file ".ggml" || endswith file ".bin" || endswith file ".gguf".

(** What [subprocess.run([executable, '--version'], capture_output=True,
    check=True, timeout=5)] does. *)
Inductive probe_outcome : Type :=
  | ProbeExit (code : Z)      (* the process ended with this exit code *)
  | ProbeNotFound             (* FileNotFoundError *)
  | ProbeTimeout              (* TimeoutExpired *)
  | ProbeError (e : pyexn).   (* an exception of no class the code catches *)

(** The machine the engine starts on, as [initialize] asks it. *)
Record Host : Type := MkHost {
  getenv : string -> option string;            (* os.getenv *)
  module_dir : string;                         (* os.path.dirname(__file__) *)
  path_join : string -> string -> string;      (* os.path.join *)
  path_exists : string -> bool;                (* os.path.exists *)
  listdir : string -> Result (list string);    (* os.listdir *)
  platform_system : string;                    (* platform.system() *)
  run_version : string -> probe_outcome
}.

(** The engine [__init__] builds. *)
Definition AIEngine_init : AIEngine :=
  MkEngine false false None None None None.

Section Initialize.

Variable host : Host.

(** [check=True] turns a non-zero exit code into CalledProcessError, which
    is caught like FileNotFoundError and TimeoutExpired. *)
Definition check_executable_in_path (executable : string) : Result bool :=
  match run_version host executable with
  | ProbeExit code => Ok (code =? 0)%Z
  | ProbeNotFound | ProbeTimeout => Ok false
  | ProbeError e => Raise e
  end.

(** The loop over [os.listdir(models_dir)]: the first file with a model
    extension is taken, else [llama_model_path] keeps its value. *)
Fixpoint pick_model (models_dir : string) (files : list string)
    (llama_model_path : option string) : option string :=
  match files with
  | [] => llama_model_path
  | file :: rest =>
      if is_model_file file then Some (path_join host models_dir file)
      else pick_model models_dir rest llama_model_path
  end.

(** The loop over [possible_paths]; the second component lists the
    executables that were started with [--version], in order. *)
Fixpoint search_executable (possible_paths : list string)
    (llama_executable : option string)
  : Result (option string) * list string :=
  match possible_paths with
  | [] => (Ok llama_executable, [])
  | path :: rest =>
      if path_exists host path then (Ok (Some path), [])
      else
        match check_executable_in_path path with
        | Ok true => (Ok (Some path), [path])
        | Ok false =>
            let '(found, started) := search_executable rest llama_executable in
            (found, path :: started)
        | Raise e => (Raise e, [path])
        end
  end.

Definition executable_name : string :=
  if String.eqb (Str.lower (platform_system host)) "windows"
  then "llama.exe" else "llama".

Definition possible_paths : list string :=
  [ path_join host (module_dir host) executable_name;
    path_join host (path_join host (module_dir host) "llama.cpp") executable_name;
    executable_name ].

Definition models_dir : string := path_join host (module_dir host) "models".

(** The engine after [setup_offline_mode], or the exception that leaves it,
    with the executables it started. *)
Definition setup_offline_mode (self : AIEngine)
  : Result AIEngine * list string :=
  let found_model :=
    if path_exists host models_dir
    then match listdir host models_dir with
         | Ok files => Ok (pick_model models_dir files (llama_model_path self))
         | Raise e => Raise e
         end
    else Ok (llama_model_path self) in
  match found_model with
  | Raise e => (Raise e, [])
  | Ok model_path =>
      match search_executable possible_paths (llama_executable self) with
      | (Raise e, started) => (Raise e, started)
      | (Ok executable, started) =>
          (Ok (MkEngine
                 (online_mode_available self)
                 (if key_truthy model_path && key_truthy executable
                  then true else offline_mode_available self)
                 (openai_api_key self) (groq_api_key self)
                 model_path executable),
           started)
      end
  end.

(** The engine after [initialize] and the value it returns. *)
Definition initialize (self : AIEngine)
  : Result (AIEngine * bool) * list string :=
  let openai := getenv host "OPENAI_API_KEY" in
  let groq := getenv host "GROQ_API_KEY" in
  let keys := key_truthy openai || key_truthy groq in
  let self1 :=
    MkEngine (if keys then true else online_mode_available self)
             (offline_mode_available self) openai groq
             (llama_model_path self) (llama_executable self) in
  match setup_offline_mode self1 with
  | (Raise e, started) => (Raise e, started)
  | (Ok self2, started) =>
      (Ok (self2, keys || offline_mode_available self2), started)
  end.

End Initialize.

(** ** api.py: register_client, unregister_client, handle_client *)

Section Clients.

Variable env : Env.
Variable ai_engine : AIEngine.

Definition welcome_msg : gmap string pyval :=
  <["type" := PyStr "connection"]>
    (<["success" := PyBool true]>
       (<["message" := PyStr "Connected to AI Code Editor Backend"]>
          (<["timestamp" := PyStr (now_isoformat env)]> ∅))).

(** A websocket is a number; [connected_clients] is the set of them. The
    client is added before the welcome message is sent. *)
Definition register_client (websocket : nat) (connected_clients : gset nat)
    (st : State) : Result unit * gset nat * State :=
  let clients := {[websocket]} ∪ connected_clients in
  match ws_send env welcome_msg st with
  | (r, st') => (r, clients, st')
  end.

(** [self.connected_clients.discard(websocket)] *)
Definition unregister_client (websocket : nat) (connected_clients : gset nat)
  : gset nat :=
  connected_clients ∖ {[websocket]}.

(** [async for message in websocket: await self.handle_message(...)]: an
    exception ends the loop. *)
Fixpoint serve_messages (messages : list string) : M unit :=
  match messages with
  | [] => mret tt
  | message :: rest =>
      handle_message env ai_engine message;; serve_messages rest
  end.

(** Both [except] clauses only log, and so does the end of the iteration,
    by exhaustion or by ConnectionClosed; [finally] unregisters. The call
    of [register_client] is outside the [try]. *)
Definition handle_client (websocket : nat) (messages : list string)
    (connected_clients : gset nat) (st : State)
  : Result unit * gset nat * State :=
  match register_client websocket connected_clients st with
  | (Raise e, clients, st1) => (Raise e, clients, st1)
  | (Ok _, clients, st1) =>
      (Ok tt, unregister_client websocket clients,
       after (serve_messages messages) st1)
  end.

End Clients.

(** * Vocabulary of the statements *)

(** ** Output cleaning as the specification words it *)

(** A line the specification skips: blank, or starting with the first 50
    characters of the prompt. *)
Definition skipped_line (prompt line : string) : bool :=
  negb (Str.truthy (Str.strip line))
  || Str.startswith line (Str.take 50 prompt).

(** Skip leading lines while they are skipped lines; the rest starts at the
    first line that is neither blank nor an echo of the prompt. *)
Fixpoint skip_leading (prompt : string) (lines : list string) : list string :=
  match lines with
  | [] => []
  | line :: rest =>
      if skipped_line prompt line then skip_leading prompt rest else lines
  end.

(** The cleaned text with every leading skipped line removed. *)
Definition skip_echo (prompt out : string) : string :=
  let cleaned :=
    Str.strip (Str.text (skip_leading prompt (Str.split Str.nl (Str.strip out)))) in
  if Str.truthy cleaned then cleaned else APOLOGY.

(** Some line of the trimmed output starts the response. *)
Definition has_response_line (prompt out : string) : bool :=
  existsb (starts_response prompt) (Str.split Str.nl (Str.strip out)).

(** ** Computations that return *)

(** [m] returns a value from every state: it never raises. *)
Definition returns {A : Type} (m : M A) : Prop :=
  forall st, exists a, result m st = Ok a.

(** Remote calls made so far. *)
Definition remote_calls (st : State) : nat :=
  length (List.filter is_remote (trace st)).

(** The text [generate_online_response] returns when the attempt fails with
    [e] and there is no local backend. *)
Definition ONLINE_FAILURE (e : pyexn) : string :=
  "Sorry, I couldn't process your request. Error: " ++ exn_str e.

(** The events of a remote attempt: one call, to the first slot that is
    set. *)
Definition attempt_events (self : AIEngine) (prompt : string) : list event :=
  if key_truthy (openai_api_key self)
  then [OpenAICall (openai_api_key self) prompt]
  else if key_truthy (groq_api_key self)
       then [GroqCall (groq_api_key self) prompt]
       else [].

(** ** Envelopes *)

(** Exactly one of [response] and [error] is present, as [success] says. *)
Definition envelope_ok (m : gmap string pyval) : Prop :=
  (m !! "success" = Some (PyBool true)
   /\ is_Some (m !! "response") /\ m !! "error" = None)
  \/ (m !! "success" = Some (PyBool false)
      /\ is_Some (m !! "error") /\ m !! "response" = None).


(** [options.get(k, dflt)] for a dict [d]. *)
Definition option_or (d : list (string * pyval)) (k : string) (dflt : pyval)
  : pyval :=
  default dflt (Py.assoc k d).


(** [m] sends nothing on the websocket. *)
Definition keeps_outbox {A : Type} (m : M A) : Prop :=
  forall st,
    outbox (after m st) = outbox st /\ sends (after m st) = sends st.

(** ** The two backends in terms of the world *)

(** The state with more events on the trace. *)
Definition logged (st : State) (evs : list event) : State :=
  MkState (files st) (tmp_serial st) (trace st ++ evs) (outbox st) (sends st).

(** The apology of the local backend for an exception. *)
Definition local_apology (e : pyexn) : string :=
  if is_timeout e then TIMEOUT_MESSAGE
  else "Sorry, I encountered an error: " ++ exn_str e.

(** A credential slot is set. *)
Definition has_key (self : AIEngine) : bool :=
  key_truthy (openai_api_key self) || key_truthy (groq_api_key self).

(** What the remote attempt gets: the trimmed answer of the first slot
    that is set, or its error (a missing library under its own name), or
    the error of having no slot. *)
Definition attempt_reply (env : Env) (self : AIEngine) (prompt : string)
  : Result string :=
  if key_truthy (openai_api_key self) then
    match openai_create env (openai_api_key self) prompt with
    | Ok text => Ok (Str.strip text)
    | Raise e =>
        Raise (if is_import_error e
               then Exn OtherError "OpenAI library not available" else e)
    end
  else if key_truthy (groq_api_key self) then
    match groq_post env (groq_api_key self) prompt with
    | Ok text => Ok (Str.strip text)
    | Raise e =>
        Raise (if is_import_error e
               then Exn OtherError "Requests library not available" else e)
    end
  else Raise (Exn OtherError "No online API keys available").

(** What an attempt of the local backend does to the world and what it
    replies: the scratch file is made, the llama process is run on it, and
    the reply follows what the process did. *)
Definition local_outcome (env : Env) (self : AIEngine) (prompt : string)
    (st : State) : Result string * State :=
  match mkstemp env (tmp_serial st) with
  | Raise e => (Ok (local_apology e), st)
  | Ok path =>
      let world fs evs :=
        MkState fs (S (tmp_serial st)) (trace st ++ evs) (outbox st)
                (sends st) in
      match write_error env path prompt with
      | Some e => (Ok (local_apology e), world (<[path := ""]> (files st)) [])
      | None =>
          let fs := <[path := prompt]> (files st) in
          let cmd := llama_cmd self path in
          match subprocess_run env cmd fs with
          | Ok res =>
              (Ok (if (returncode res =? 0)%Z
                   then clean_output prompt (stdout res)
                   else "Sorry, there was an error processing your request: "
                        ++ stderr res),
               world (delete path fs) [LlamaRun cmd])
          | Raise e => (Ok (local_apology e), world fs [LlamaRun cmd])
          end
      end
  end.

(** What an attempt of the remote backend does to the world and what it
    replies: the slot that is set is called; its text is the reply; when it
    fails the local backend is attempted if it is configured, else the
    reply is the apology that quotes the failure. *)
Definition remote_outcome (env : Env) (self : AIEngine) (prompt : string)
    (st : State) : Result string * State :=
  let st1 := logged st (attempt_events self prompt) in
  match attempt_reply env self prompt with
  | Ok text => (Ok text, st1)
  | Raise e =>
      if offline_mode_available self then local_outcome env self prompt st1
      else (Ok (ONLINE_FAILURE e), st1)
  end.


(** The outcome [out] of a run from [st] is an attempt of the remote
    backend: the slot that is set was called, then at most the local
    process was run, and a text from the slot is the reply. *)
Definition attempts_remote (env : Env) (self : AIEngine) (prompt : string)
    (st : State) (out : Result string * State) : Prop :=
  out = remote_outcome env self prompt st
  /\ (exists local,
         trace (snd out)
         = (trace st ++ attempt_events self prompt ++ local)%list
         /\ (local = []
             \/ exists path, local = [LlamaRun (llama_cmd self path)]))
  /\ (forall text,
         attempt_reply env self prompt = Ok text ->
         out = (Ok text, logged st (attempt_events self prompt))).

(** The outcome [out] of a run from [st] is an attempt of the local
    backend: no remote call was made, and once the scratch file is
    written the llama process was run on it. *)
Definition attempts_local (env : Env) (self : AIEngine) (prompt : string)
    (st : State) (out : Result string * State) : Prop :=
  out = local_outcome env self prompt st
  /\ remote_calls (snd out) = remote_calls st
  /\ (forall path,
         mkstemp env (tmp_serial st) = Ok path ->
         write_error env path prompt = None ->
         trace (snd out)
         = (trace st ++ [LlamaRun (llama_cmd self path)])%list).

(** ** Sample worlds and engines *)

(** Remote services refuse, the local process runs out of time. *)
Definition env_down : Env :=
  MkEnv (fun _ _ => Raise (Exn OtherError "Connection error."))
        (fun _ _ => Raise (Exn OtherError "503 Server Error"))
        (fun n => Ok ("/tmp/tmp" ++ Str.of_Z (Z.of_nat n) ++ ".txt"))
        (fun _ _ => None)
        (fun _ _ => Raise (Exn TimeoutExpired "timed out after 60 seconds"))
        "2024-01-01T00:00:00"
        (fun _ => Raise (Exn JSONDecodeError "Expecting value"))
        (fun _ => None).

(** The remote service answers with the prompt it was given. *)
Definition env_echo : Env :=
  MkEnv (fun _ prompt => Ok prompt)
        (fun _ prompt => Ok prompt)
        (fun n => Ok ("/tmp/tmp" ++ Str.of_Z (Z.of_nat n) ++ ".txt"))
        (fun _ _ => None)
        (fun _ _ => Ok (Completed 0 "done" ""))
        "2024-01-01T00:00:00"
        (fun _ => Ok (PyDict []))
        (fun _ => None).

Definition st_init : State := MkState ∅ 0 [] [] 0.

Definition engine_none : AIEngine := MkEngine false false None None None None.
Definition engine_remote : AIEngine :=
  MkEngine true false (Some "sk-1") (Some "gsk-1") None None.
Definition engine_local : AIEngine :=
  MkEngine false true None None (Some "models/m.gguf") (Some "llama").
Definition engine_both : AIEngine :=
  MkEngine true true (Some "sk-1") (Some "gsk-1")
           (Some "models/m.gguf") (Some "llama").

(** The trimmed output, or the apology when nothing is left. *)
Definition trimmed_or_apology (out : string) : string :=
  if Str.truthy (Str.strip out) then Str.strip out else APOLOGY.

(** Neither remote service has its client library, and no temporary file
    can be made. *)
Definition env_bare : Env :=
  MkEnv (fun _ _ => Raise (Exn ImportError "No module named 'openai'"))
        (fun _ _ => Raise (Exn ImportError "No module named 'requests'"))
        (fun _ => Raise (Exn OtherError "[Errno 28] No space left on device"))
        (fun _ _ => None)
        (fun _ _ => Ok (Completed 0 "done" ""))
        "2024-01-01T00:00:00"
        (fun _ => Ok (PyList []))
        (fun _ => None).

(** A Linux host: an empty OpenAI key, a Groq key, a models directory
    with two model files, and llama found only through the search path. *)
Definition host_sample : Host :=
  MkHost (fun name =>
            if String.eqb name "OPENAI_API_KEY" then Some ""
            else if String.eqb name "GROQ_API_KEY" then Some "gsk-1"
            else None)
         "/app/backend"
         (fun a b => a ++ "/" ++ b)
         (fun path => String.eqb path "/app/backend/models")
         (fun _ => Ok ["README.md"; "tiny.gguf"; "big.bin"])
         "Linux"
         (fun executable =>
            if String.eqb executable "llama" then ProbeExit 0
            else ProbeNotFound).

(** A host with no key, no models directory and no llama. *)
Definition host_bare : Host :=
  MkHost (fun _ => None)
         "/app/backend"
         (fun a b => a ++ "/" ++ b)
         (fun _ => false)
         (fun _ => Ok [])
         "Linux"
         (fun _ => ProbeNotFound).

(** A websocket that is already closed: every send fails. *)
Definition env_closed : Env :=
  MkEnv (fun _ prompt => Ok prompt)
        (fun _ prompt => Ok prompt)
        (fun n => Ok ("/tmp/tmp" ++ Str.of_Z (Z.of_nat n) ++ ".txt"))
        (fun _ _ => None)
        (fun _ _ => Ok (Completed 0 "done" ""))
        "2024-01-01T00:00:00"
        (fun _ => Ok (PyDict []))
        (fun _ => Some (Exn OtherError "no close frame received or sent")).

(** * Properties *)

(** ** Strings *)

Module StrFacts.
Import Str.

Lemma truthy_lstrip s : truthy (lstrip s) = has_nonspace s.
Proof.
  induction s as [|c s IH]; simpl; [reflexivity|].
  destruct (is_space c); simpl; [exact IH | reflexivity].
Qed.

Lemma truthy_rstrip s : truthy (rstrip s) = has_nonspace s.
Proof.
  induction s as [|c s IH]; simpl; [reflexivity|].
  destruct (rstrip s) as [|c' r]; simpl in *.
  - rewrite <- IH. destruct (is_space c); reflexivity.
  - rewrite <- IH. now rewrite orb_true_r.
Qed.

Lemma has_nonspace_lstrip s : has_nonspace (lstrip s) = has_nonspace s.
Proof.
  induction s as [|c s IH]; simpl; [reflexivity|].
  destruct (is_space c) eqn:E; simpl; [exact IH | now rewrite E].
Qed.

Lemma truthy_strip s : truthy (strip s) = has_nonspace s.
Proof. unfold strip. now rewrite truthy_rstrip, has_nonspace_lstrip. Qed.

Lemma has_nonspace_app s t :
  has_nonspace (s ++ t) = has_nonspace s || has_nonspace t.
Proof.
  induction s as [|c s IH]; simpl; [reflexivity|].
  now rewrite IH, orb_assoc.
Qed.

Lemma rstrip_idem s : rstrip (rstrip s) = rstrip s.
Proof.
  induction s as [|c s IH]; simpl; [reflexivity|].
  destruct (rstrip s) as [|c' r] eqn:E.
  - destruct (is_space c) eqn:Ec; simpl; [reflexivity | now rewrite Ec].
  - change (rstrip (String c (String c' r)))
      with (match rstrip (String c' r) with
            | EmptyString =>
                if is_space c then EmptyString else String c EmptyString
            | r' => String c r'
            end).
    now rewrite IH.
Qed.

(** A string that does not start with white space keeps its start. *)
Lemma lstrip_rstrip_lstrip s : lstrip (rstrip (lstrip s)) = rstrip (lstrip s).
Proof.
  induction s as [|c s IH]; simpl; [reflexivity|].
  destruct (is_space c) eqn:Ec; [exact IH|].
  simpl. destruct (rstrip s) as [|c' r]; simpl; rewrite ?Ec; simpl;
    now rewrite ?Ec.
Qed.

Lemma strip_idem s : strip (strip s) = strip s.
Proof.
  unfold strip. now rewrite lstrip_rstrip_lstrip, rstrip_idem.
Qed.

Lemma split_nonempty sep s : split sep s <> [].
Proof.
  destruct s as [|c s]; simpl; [discriminate|].
  destruct (Ascii.eqb c sep); [discriminate|].
  destruct (split sep s); discriminate.
Qed.

Lemma join_cons_char sep c l ls :
  join sep (String c l :: ls) = String c (join sep (l :: ls)).
Proof. destruct ls; reflexivity. Qed.

(** Joining the pieces of a split with the separator gives the string back. *)
Lemma join_split sep s : join (String sep EmptyString) (split sep s) = s.
Proof.
  induction s as [|c s IH]; simpl; [reflexivity|].
  destruct (Ascii.eqb c sep) eqn:E.
  - apply Ascii.eqb_eq in E. subst c.
    destruct (split sep s) as [|l ls] eqn:Es.
    + now apply split_nonempty in Es.
    + change (join (String sep EmptyString) (EmptyString :: l :: ls))
        with (String sep (join (String sep EmptyString) (l :: ls))).
      now rewrite IH.
  - destruct (split sep s) as [|l ls] eqn:Es.
    + now apply split_nonempty in Es.
    + now rewrite join_cons_char, IH.
Qed.

Lemma text_split s : text (split nl s) = s.
Proof. apply join_split. Qed.

Lemma contains_app_r needle a b :
  contains needle b = true -> contains needle (a ++ b) = true.
Proof.
  intros H. induction a as [|c a IH]; simpl; [exact H|].
  rewrite IH. apply orb_true_r.
Qed.

Lemma lower_idem_char c : lower_char (lower_char c) = lower_char c.
Proof.
  destruct c as [[] [] [] [] [] [] [] []]; reflexivity.
Qed.

Lemma lower_idem s : lower (lower s) = lower s.
Proof.
  induction s as [|c s IH]; simpl; [reflexivity|].
  now rewrite lower_idem_char, IH.
Qed.

End StrFacts.

(** ** Output cleaning of the local backend *)

Lemma skipped_line_starts_response prompt line :
  skipped_line prompt line = negb (starts_response prompt line).
Proof.
  unfold skipped_line, starts_response.
  now rewrite negb_andb, negb_involutive.
Qed.

(** The loop counts up to the first line that starts the response. *)
Lemma scan_lines_found prompt lines i d :
  existsb (starts_response prompt) lines = true ->
  exists k, scan_lines prompt lines i d = i + k
            /\ drop k lines = skip_leading prompt lines.
Proof.
  revert i. induction lines as [|line rest IH]; intros i H; simpl in *.
  - discriminate.
  - rewrite skipped_line_starts_response.
    destruct (starts_response prompt line) eqn:E; simpl in *.
    + exists 0. split; [lia | reflexivity].
    + destruct (IH (S i) H) as (k & Hk & Hd).
      exists (S k). split; [lia | exact Hd].
Qed.

(** Without such a line the loop leaves [response_start] as it was. *)
Lemma scan_lines_none prompt lines i d :
  existsb (starts_response prompt) lines = false ->
  scan_lines prompt lines i d = d.
Proof.
  revert i. induction lines as [|line rest IH]; intros i H; simpl in *.
  - reflexivity.
  - apply orb_false_iff in H as [H1 H2]. rewrite H1. now apply IH.
Qed.

(** What is left after the skip starts with a line of the response. *)
Lemma skip_leading_head prompt lines :
  existsb (starts_response prompt) lines = true ->
  exists line rest,
    skip_leading prompt lines = line :: rest
    /\ starts_response prompt line = true.
Proof.
  induction lines as [|line rest IH]; intros H; simpl in *; [discriminate|].
  rewrite skipped_line_starts_response.
  destruct (starts_response prompt line) eqn:E; simpl in *.
  - now exists line, rest.
  - now apply IH.
Qed.

Lemma text_head_nonspace line rest :
  Str.has_nonspace line = true ->
  Str.has_nonspace (Str.text (line :: rest)) = true.
Proof.
  intros H. unfold Str.text. destruct rest as [|l rest]; simpl; [exact H|].
  change (Str.has_nonspace
            (line ++ String Str.nl EmptyString
                  ++ Str.join (String Str.nl EmptyString) (l :: rest)) = true).
  now rewrite StrFacts.has_nonspace_app, H.
Qed.

(** C8, as the code has it. The cleaned text of a run that exits with code 0: the
    output is trimmed and split into lines; when some line is neither blank
    nor starts with the first 50 characters of the prompt, the text is what
    follows the skip of the leading blank or echoed lines, trimmed, and later
    lines stay whatever they start with; when no line is of that kind nothing
    is skipped, and the whole trimmed output is the text (the apology when it
    is empty). *)
Theorem clean_output_spec (prompt out : string) :
  clean_output prompt out =
    if has_response_line prompt out
    then Str.strip
           (Str.text (skip_leading prompt (Str.split Str.nl (Str.strip out))))
    else if Str.truthy (Str.strip out) then Str.strip out else APOLOGY.
Proof.
  unfold clean_output, has_response_line.
  set (lines := Str.split Str.nl (Str.strip out)).
  destruct (existsb (starts_response prompt) lines) eqn:E.
  - destruct (scan_lines_found prompt lines 0 0 E) as (k & Hk & Hd).
    rewrite Hk. simpl. rewrite Hd.
    destruct (skip_leading_head prompt lines E) as (line & rest & Hl & Hs).
    rewrite Hl, StrFacts.truthy_strip, text_head_nonspace; [reflexivity|].
    unfold starts_response in Hs. apply andb_true_iff in Hs as [Hs _].
    now rewrite StrFacts.truthy_strip in Hs.
  - rewrite (scan_lines_none prompt lines 0 0 E). simpl.
    subst lines.
    now rewrite drop_0, StrFacts.text_split, StrFacts.strip_idem.
Qed.

(** With a line that starts the response the code and the skip agree. *)
Lemma clean_output_skip_echo (prompt out : string) :
  has_response_line prompt out = true ->
  clean_output prompt out = skip_echo prompt out
  /\ Str.truthy (clean_output prompt out) = true.
Proof.
  intros H. unfold skip_echo. rewrite clean_output_spec, H.
  destruct (skip_leading_head prompt _ H) as (line & rest & Hl & Hs).
  assert (Ht : Str.truthy
                 (Str.strip
                    (Str.text
                       (skip_leading prompt
                          (Str.split Str.nl (Str.strip out))))) = true).
  { rewrite Hl, StrFacts.truthy_strip. apply text_head_nonspace.
    unfold starts_response in Hs. apply andb_true_iff in Hs as [Hs _].
    now rewrite StrFacts.truthy_strip in Hs. }
  now rewrite Ht.
Qed.

(** C8, counterexample. An output made of the echoed prompt line alone is
    returned whole, although its only line starts with the first 50
    characters of the prompt. *)
Lemma clean_output_keeps_sole_echo :
  clean_output "Hi" "Hi there" = "Hi there"
  /\ skipped_line "Hi" "Hi there" = true
  /\ clean_output "Hi" "Hi there" <> skip_echo "Hi" "Hi there".
Proof.
  split; [reflexivity|]. split; [reflexivity|].
  vm_compute. discriminate.
Qed.

(** ** The monad *)

Lemma try_except_returns {A : Type} (body : M A) (handler : pyexn -> M A) :
  (forall e, returns (handler e)) -> returns (try_except body handler).
Proof.
  intros H st. unfold result, try_except.
  destruct (body st) as [[a|e] st'] eqn:E; simpl.
  - now exists a.
  - apply H.
Qed.

Lemma mret_returns {A : Type} (a : A) : returns (mret a).
Proof. intros st. now exists a. Qed.

Lemma try_except_raise {A : Type} (body : M A) handler st e :
  result body st = Raise e ->
  try_except body handler st = handler e (after body st).
Proof.
  unfold result, after, try_except.
  destruct (body st) as [[a|e'] st']; simpl; [discriminate|].
  now intros [= ->].
Qed.

Lemma try_except_ok {A : Type} (body : M A) handler st a :
  result body st = Ok a ->
  try_except body handler st = (Ok a, after body st).
Proof.
  unfold result, after, try_except.
  destruct (body st) as [[a'|e'] st']; simpl; [|discriminate].
  now intros [= ->].
Qed.

(** ** The router never raises *)

Section RouterTotal.

Variable env : Env.
Variable self : AIEngine.

Lemma generate_offline_response_returns prompt :
  returns (generate_offline_response env self prompt).
Proof.
  apply try_except_returns. intros e.
  destruct (is_timeout e); apply mret_returns.
Qed.

Lemma generate_online_response_returns prompt :
  returns (generate_online_response env self prompt).
Proof.
  apply try_except_returns. intros e.
  destruct (offline_mode_available self).
  - apply generate_offline_response_returns.
  - apply mret_returns.
Qed.

Lemma generate_response_returns prompt mode :
  returns (generate_response env self prompt mode).
Proof.
  unfold generate_response.
  repeat match goal with
         | |- returns (if ?b then _ else _) => destruct b
         end;
    auto using generate_online_response_returns,
               generate_offline_response_returns, mret_returns.
Qed.

End RouterTotal.

(** ** Mode resolution *)

Lemma eq_str_false mode s : mode <> PyStr s -> Py.eq_str mode s = false.
Proof.
  destruct mode; simpl; try reflexivity.
  intros H. apply String.eqb_neq. congruence.
Qed.

(** The local backend, step by step in the world. *)
Lemma generate_offline_response_outcome env self prompt st :
  generate_offline_response env self prompt st
  = local_outcome env self prompt st.
Proof.
  unfold generate_offline_response, local_outcome, local_apology, try_except,
    mbind, M_bind, write_prompt_file, run_llama, unlink, log_event,
    get_files, lift, mret, M_ret.
  destruct (mkstemp env (tmp_serial st)) as [path|e]; simpl.
  2: { destruct (is_timeout e); reflexivity. }
  destruct (write_error env path prompt) as [e|]; simpl.
  { rewrite app_nil_r. destruct (is_timeout e); reflexivity. }
  destruct (subprocess_run env (llama_cmd self path)
              (<[path:=prompt]> (files st))) as [res|e]; simpl.
  - rewrite lookup_insert_eq. simpl.
    destruct (returncode res =? 0)%Z; reflexivity.
  - destruct (is_timeout e); reflexivity.
Qed.

Lemma logged_nil st : logged st [] = st.
Proof. destruct st. unfold logged. simpl. now rewrite app_nil_r. Qed.

(** The remote attempt: the slot that is set is called once. *)
Lemma online_attempt_outcome env self prompt st :
  online_attempt env self prompt st
  = (attempt_reply env self prompt, logged st (attempt_events self prompt)).
Proof.
  unfold online_attempt, attempt_reply, attempt_events.
  destruct (key_truthy (openai_api_key self)).
  - unfold call_openai_api, try_except, mbind, M_bind, log_event, lift,
      mret, M_ret, raise, logged. simpl.
    destruct (openai_create env (openai_api_key self) prompt) as [t|e];
      simpl; [reflexivity|].
    destruct (is_import_error e); reflexivity.
  - destruct (key_truthy (groq_api_key self)).
    + unfold call_groq_api, try_except, mbind, M_bind, log_event, lift,
        mret, M_ret, raise, logged. simpl.
      destruct (groq_post env (groq_api_key self) prompt) as [t|e];
        simpl; [reflexivity|].
      destruct (is_import_error e); reflexivity.
    + unfold raise. now rewrite logged_nil.
Qed.

(** The remote backend, step by step in the world. *)
Lemma generate_online_response_outcome env self prompt st :
  generate_online_response env self prompt st
  = remote_outcome env self prompt st.
Proof.
  unfold generate_online_response, remote_outcome, try_except.
  rewrite online_attempt_outcome.
  destruct (attempt_reply env self prompt) as [text|e]; [reflexivity|].
  destruct (offline_mode_available self); [|reflexivity].
  apply generate_offline_response_outcome.
Qed.

(** The router in terms of the two outcomes. *)
Lemma generate_response_outcome env self prompt mode st :
  generate_response env self prompt mode st
  = if Py.eq_str mode "online" && online_mode_available self
    then remote_outcome env self prompt st
    else if Py.eq_str mode "offline" && offline_mode_available self
    then local_outcome env self prompt st
    else if online_mode_available self then remote_outcome env self prompt st
    else if offline_mode_available self then local_outcome env self prompt st
    else (Ok (generate_fallback_response prompt), st).
Proof.
  unfold generate_response.
  repeat match goal with
         | |- context [if ?b then _ else _] => destruct b
         end;
    auto using generate_online_response_outcome,
               generate_offline_response_outcome.
Qed.

(** The trace a local attempt leaves: the run of the process, once the
    scratch file is written. *)
Lemma local_outcome_trace env self prompt st :
  (forall path,
      mkstemp env (tmp_serial st) = Ok path ->
      write_error env path prompt = None ->
      trace (snd (local_outcome env self prompt st))
      = (trace st ++ [LlamaRun (llama_cmd self path)])%list)
  /\ exists local,
       trace (snd (local_outcome env self prompt st))
       = (trace st ++ local)%list
       /\ (local = [] \/ exists path, local = [LlamaRun (llama_cmd self path)]).
Proof.
  unfold local_outcome. split.
  - intros path -> ->.
    destruct (subprocess_run env _ _); reflexivity.
  - destruct (mkstemp env (tmp_serial st)) as [path|e]; simpl.
    2: { exists []. rewrite app_nil_r. auto. }
    destruct (write_error env path prompt) as [e|]; simpl.
    { exists []. auto. }
    exists [LlamaRun (llama_cmd self path)].
    split; [destruct (subprocess_run env _ _); reflexivity|].
    right. now exists path.
Qed.

(** The trace a remote attempt leaves: the call of the slot, then at
    most the run of the local process. *)
Lemma remote_outcome_trace env self prompt st :
  exists local,
    trace (snd (remote_outcome env self prompt st))
    = (trace st ++ attempt_events self prompt ++ local)%list
    /\ (local = [] \/ exists path, local = [LlamaRun (llama_cmd self path)]).
Proof.
  unfold remote_outcome.
  destruct (attempt_reply env self prompt) as [text|e].
  - exists []. simpl. rewrite app_nil_r. auto.
  - destruct (offline_mode_available self).
    + destruct (proj2 (local_outcome_trace env self prompt
                         (logged st (attempt_events self prompt))))
        as (local & Ht & Hs).
      exists local. rewrite Ht. simpl. rewrite app_assoc. auto.
    + exists []. simpl. rewrite app_nil_r. auto.
Qed.

(** With a slot set the attempt is one remote call. *)
Lemma attempt_events_with_key self prompt :
  has_key self = true ->
  attempt_events self prompt
  = [if key_truthy (openai_api_key self)
     then OpenAICall (openai_api_key self) prompt
     else GroqCall (groq_api_key self) prompt].
Proof.
  unfold has_key, attempt_events.
  destruct (key_truthy (openai_api_key self)); [reflexivity|].
  destruct (key_truthy (groq_api_key self)); [reflexivity | discriminate].
Qed.

Lemma remote_outcome_attempts env self prompt st :
  attempts_remote env self prompt st (remote_outcome env self prompt st).
Proof.
  split; [reflexivity|]. split; [apply remote_outcome_trace|].
  intros text H. unfold remote_outcome. now rewrite H.
Qed.

Lemma local_outcome_attempts env self prompt st :
  attempts_local env self prompt st (local_outcome env self prompt st).
Proof.
  split; [reflexivity|]. split; [|apply local_outcome_trace].
  destruct (proj2 (local_outcome_trace env self prompt st))
    as (local & Ht & Hs).
  unfold remote_calls. rewrite Ht, List.filter_app.
  destruct Hs as [-> | (path & ->)]; simpl; now rewrite app_nil_r.
Qed.

(** C1. Mode resolution, with each backend followed into the world. An
    online request with the remote backend configured attempts the remote
    backend: the credential slot that is set is called once, its text is
    the reply, and its failure is handed to the local backend or
    apologised for. An offline request with the local backend configured
    attempts the local backend: the scratch file is written and the llama
    process is run on it, without any remote call. When the requested
    mode is not available the router attempts the backend that is, the
    remote one first, and with no backend at all it returns the canned
    text and touches nothing. *)
Theorem mode_resolution
    (env : Env) (self : AIEngine) (prompt : string) (st : State) :
  let run mode := generate_response env self prompt mode st in
  (online_mode_available self = true ->
   attempts_remote env self prompt st (run (PyStr "online")))
  /\ (offline_mode_available self = true ->
      attempts_local env self prompt st (run (PyStr "offline")))
  /\ (online_mode_available self = false ->
      offline_mode_available self = true ->
      attempts_local env self prompt st (run (PyStr "online")))
  /\ (offline_mode_available self = false ->
      online_mode_available self = true ->
      attempts_remote env self prompt st (run (PyStr "offline")))
  /\ (online_mode_available self = false ->
      offline_mode_available self = false ->
      forall mode, run mode = (Ok (generate_fallback_response prompt), st))
  /\ (forall mode,
         Py.eq_str mode "online" && online_mode_available self = false ->
         Py.eq_str mode "offline" && offline_mode_available self = false ->
         (online_mode_available self = true ->
          attempts_remote env self prompt st (run mode))
         /\ (online_mode_available self = false ->
             offline_mode_available self = true ->
             attempts_local env self prompt st (run mode)))
  /\ (has_key self = true ->
      attempt_events self prompt
      = [if key_truthy (openai_api_key self)
         then OpenAICall (openai_api_key self) prompt
         else GroqCall (groq_api_key self) prompt]).
Proof.
  intros run. subst run. cbv beta.
  pose proof (remote_outcome_attempts env self prompt st) as Hr.
  pose proof (local_outcome_attempts env self prompt st) as Hl.
  split; [|split; [|split; [|split; [|split; [|split]]]]].
  - intros H. rewrite generate_response_outcome, H. exact Hr.
  - intros H. rewrite generate_response_outcome, H. exact Hl.
  - intros H1 H2. rewrite generate_response_outcome, H1, H2. exact Hl.
  - intros H1 H2. rewrite generate_response_outcome, H1, H2. exact Hr.
  - intros H1 H2 mode. rewrite generate_response_outcome, H1, H2.
    now rewrite !andb_false_r.
  - intros mode H1 H2. rewrite generate_response_outcome, H1, H2.
    split.
    + intros ->. exact Hr.
    + intros -> ->. exact Hl.
  - apply attempt_events_with_key.
Qed.

Lemma mode_resolution_witness :
  (online_mode_available engine_both = true
   /\ has_key engine_both = true
   /\ attempt_reply env_echo engine_both " hello " = Ok "hello"
   /\ generate_response env_echo engine_both " hello " (PyStr "online") st_init
      = (Ok "hello", logged st_init [OpenAICall (Some "sk-1") " hello "]))
  /\ (offline_mode_available engine_both = true
      /\ mkstemp env_down (tmp_serial st_init) = Ok "/tmp/tmp0.txt"
      /\ trace (snd (generate_response env_down engine_both "hello"
                       (PyStr "offline") st_init))
         = [LlamaRun (llama_cmd engine_both "/tmp/tmp0.txt")])
  /\ (online_mode_available engine_local = false
      /\ offline_mode_available engine_local = true
      /\ trace (snd (generate_response env_down engine_local "hello"
                       (PyStr "online") st_init))
         = [LlamaRun (llama_cmd engine_local "/tmp/tmp0.txt")])
  /\ (offline_mode_available engine_remote = false
      /\ online_mode_available engine_remote = true
      /\ generate_response env_echo engine_remote " hello " (PyStr "offline")
           st_init
         = (Ok "hello", logged st_init [OpenAICall (Some "sk-1") " hello "]))
  /\ (online_mode_available engine_none = false
      /\ offline_mode_available engine_none = false
      /\ generate_response env_down engine_none "hello" (PyStr "online") st_init
         = (Ok (generate_fallback_response "hello"), st_init)).
Proof.
  destruct (mode_resolution env_echo engine_both " hello " st_init)
    as (He & _ & _ & _ & _ & _ & Hk).
  destruct (mode_resolution env_down engine_both "hello" st_init)
    as (_ & Hb & _).
  destruct (mode_resolution env_down engine_local "hello" st_init)
    as (_ & _ & Hl & _).
  destruct (mode_resolution env_echo engine_remote " hello " st_init)
    as (_ & _ & _ & Hr & _).
  destruct (mode_resolution env_down engine_none "hello" st_init)
    as (_ & _ & _ & _ & Hn & _).
  split.
  { split; [reflexivity|]. split; [reflexivity|]. split; [reflexivity|].
    destruct (He eq_refl) as (_ & _ & Htext).
    rewrite (Htext "hello" eq_refl), (Hk eq_refl). reflexivity. }
  split.
  { split; [reflexivity|]. split; [reflexivity|].
    destruct (Hb eq_refl) as (_ & _ & Ht).
    exact (Ht "/tmp/tmp0.txt" eq_refl eq_refl). }
  split.
  { split; [reflexivity|]. split; [reflexivity|].
    destruct (Hl eq_refl eq_refl) as (_ & _ & Ht).
    exact (Ht "/tmp/tmp0.txt" eq_refl eq_refl). }
  split.
  { split; [reflexivity|]. split; [reflexivity|].
    destruct (Hr eq_refl eq_refl) as (_ & _ & Htext).
    exact (Htext "hello" eq_refl). }
  split; [reflexivity|]. split; [reflexivity|].
  exact (Hn eq_refl eq_refl (PyStr "online")).
Defined.

(** C10. A mode that is neither 'online' nor 'offline' does not make the
    router fail and is handled like a requested mode that is not
    available: the remote backend is attempted if it is configured (the
    slot that is set is called once), else the local backend is attempted
    if it is configured (the llama process is run on the scratch file),
    else the canned text is returned and nothing is touched. *)
Theorem unknown_mode_falls_through
    (env : Env) (self : AIEngine) (prompt : string) (mode : pyval)
    (st : State) :
  mode <> PyStr "online" ->
  mode <> PyStr "offline" ->
  let run m := generate_response env self prompt m st in
  (online_mode_available self = true ->
   run mode = remote_outcome env self prompt st
   /\ exists local,
        trace (snd (run mode))
        = (trace st ++ attempt_events self prompt ++ local)%list
        /\ (local = []
            \/ exists path, local = [LlamaRun (llama_cmd self path)]))
  /\ (online_mode_available self = true ->
      has_key self = true ->
      forall text,
        attempt_reply env self prompt = Ok text ->
        run mode
        = (Ok text,
           logged st [if key_truthy (openai_api_key self)
                      then OpenAICall (openai_api_key self) prompt
                      else GroqCall (groq_api_key self) prompt]))
  /\ (online_mode_available self = false ->
      offline_mode_available self = true ->
      run mode = local_outcome env self prompt st
      /\ remote_calls (snd (run mode)) = remote_calls st
      /\ forall path,
           mkstemp env (tmp_serial st) = Ok path ->
           write_error env path prompt = None ->
           trace (snd (run mode))
           = (trace st ++ [LlamaRun (llama_cmd self path)])%list)
  /\ (online_mode_available self = false ->
      offline_mode_available self = false ->
      run mode = (Ok (generate_fallback_response prompt), st))
  /\ (online_mode_available self = false -> run mode = run (PyStr "online"))
  /\ (offline_mode_available self = false -> run mode = run (PyStr "offline"))
  /\ exists text, fst (run mode) = Ok text.
Proof.
  intros H1 H2 run. subst run. cbv beta.
  assert (Hrun : generate_response env self prompt mode st
                 = if online_mode_available self
                   then remote_outcome env self prompt st
                   else if offline_mode_available self
                        then local_outcome env self prompt st
                        else (Ok (generate_fallback_response prompt), st)).
  { rewrite generate_response_outcome.
    now rewrite (eq_str_false _ _ H1), (eq_str_false _ _ H2). }
  split; [|split; [|split; [|split; [|split; [|split]]]]].
  - intros Hon. rewrite Hrun, Hon. split; [reflexivity|].
    apply remote_outcome_trace.
  - intros Hon Hk text Ht. rewrite Hrun, Hon.
    unfold remote_outcome. now rewrite Ht, attempt_events_with_key.
  - intros Hon Hoff. rewrite Hrun, Hon, Hoff.
    split; [reflexivity|]. split; [|apply local_outcome_trace].
    destruct (proj2 (local_outcome_trace env self prompt st))
      as (local & Ht & Hs).
    unfold remote_calls. rewrite Ht, List.filter_app.
    destruct Hs as [-> | (path & ->)]; simpl; now rewrite app_nil_r.
  - intros Hon Hoff. now rewrite Hrun, Hon, Hoff.
  - intros Hon. rewrite Hrun, generate_response_outcome, Hon. simpl.
    destruct (offline_mode_available self); reflexivity.
  - intros Hoff. rewrite Hrun, generate_response_outcome, Hoff. simpl.
    rewrite ?andb_false_r.
    destruct (online_mode_available self); reflexivity.
  - apply (generate_response_returns env self prompt mode st).
Qed.

Lemma unknown_mode_falls_through_witness :
  PyStr "onlien" <> PyStr "online"
  /\ PyStr "onlien" <> PyStr "offline"
  /\ (online_mode_available engine_both = true
      /\ has_key engine_both = true
      /\ attempt_reply env_echo engine_both " hello " = Ok "hello"
      /\ generate_response env_echo engine_both " hello " (PyStr "onlien")
           st_init
         = (Ok "hello", logged st_init [OpenAICall (Some "sk-1") " hello "]))
  /\ (online_mode_available engine_local = false
      /\ offline_mode_available engine_local = true
      /\ mkstemp env_down (tmp_serial st_init) = Ok "/tmp/tmp0.txt"
      /\ trace (snd (generate_response env_down engine_local "hello"
                       (PyStr "onlien") st_init))
         = [LlamaRun (llama_cmd engine_local "/tmp/tmp0.txt")])
  /\ (offline_mode_available engine_none = false
      /\ generate_response env_down engine_none "hello" (PyStr "onlien")
           st_init
         = (Ok (generate_fallback_response "hello"), st_init)).
Proof.
  assert (H1 : PyStr "onlien" <> PyStr "online") by discriminate.
  assert (H2 : PyStr "onlien" <> PyStr "offline") by discriminate.
  destruct (unknown_mode_falls_through env_echo engine_both " hello "
              (PyStr "onlien") st_init H1 H2) as (_ & Hkey & _).
  destruct (unknown_mode_falls_through env_down engine_local "hello"
              (PyStr "onlien") st_init H1 H2) as (_ & _ & Hloc & _).
  destruct (unknown_mode_falls_through env_down engine_none "hello"
              (PyStr "onlien") st_init H1 H2) as (_ & _ & _ & Hnone & _).
  split; [exact H1|]. split; [exact H2|].
  split.
  { split; [reflexivity|]. split; [reflexivity|]. split; [reflexivity|].
    exact (Hkey eq_refl eq_refl "hello" eq_refl). }
  split.
  { split; [reflexivity|]. split; [reflexivity|]. split; [reflexivity|].
    destruct (Hloc eq_refl eq_refl) as (_ & _ & Ht).
    exact (Ht "/tmp/tmp0.txt" eq_refl eq_refl). }
  split; [reflexivity | exact (Hnone eq_refl eq_refl)].
Defined.

(** ** Failure of the remote attempt *)

Section RemoteFailure.

Variable env : Env.
Variable self : AIEngine.

Lemma online_attempt_trace prompt st :
  trace (after (online_attempt env self prompt) st)
  = (trace st ++ attempt_events self prompt)%list.
Proof.
  unfold online_attempt, attempt_events, after.
  destruct (key_truthy (openai_api_key self)).
  - unfold call_openai_api, try_except, mbind, M_bind, log_event, lift,
      mret, M_ret, raise. simpl.
    destruct (openai_create env (openai_api_key self) prompt) as [t|e];
      simpl; [reflexivity|].
    destruct (is_import_error e); reflexivity.
  - destruct (key_truthy (groq_api_key self)).
    + unfold call_groq_api, try_except, mbind, M_bind, log_event, lift,
        mret, M_ret, raise. simpl.
      destruct (groq_post env (groq_api_key self) prompt) as [t|e];
        simpl; [reflexivity|].
      destruct (is_import_error e); reflexivity.
    + simpl. now rewrite app_nil_r.
Qed.

Lemma attempt_events_remote prompt :
  length (List.filter is_remote (attempt_events self prompt)) <= 1.
Proof.
  unfold attempt_events.
  destruct (key_truthy (openai_api_key self)); simpl; [lia|].
  destruct (key_truthy (groq_api_key self)); simpl; lia.
Qed.

(** The local backend makes no remote call. *)
Lemma generate_offline_response_trace prompt st :
  exists evs,
    trace (after (generate_offline_response env self prompt) st)
    = (trace st ++ evs)%list
    /\ List.filter is_remote evs = [].
Proof.
  unfold generate_offline_response, after, try_except, mbind, M_bind,
    write_prompt_file, run_llama, unlink, log_event, get_files, lift,
    mret, M_ret.
  destruct (mkstemp env (tmp_serial st)) as [path|e]; simpl.
  2: { exists []. rewrite app_nil_r.
       split; [destruct (is_timeout e); reflexivity | reflexivity]. }
  destruct (write_error env path prompt) as [e|]; simpl.
  { exists []. rewrite app_nil_r.
    split; [destruct (is_timeout e); reflexivity | reflexivity]. }
  match goal with
  | |- context [subprocess_run env ?c ?f] =>
      exists [LlamaRun c]; destruct (subprocess_run env c f) as [res|e]
  end; simpl.
  - rewrite lookup_insert_eq. simpl.
    split; [destruct (returncode res =? 0)%Z; reflexivity | reflexivity].
  - split; [destruct (is_timeout e); reflexivity | reflexivity].
Qed.

(** One request makes at most one remote call. *)
Lemma generate_online_response_remote_calls prompt st :
  remote_calls (after (generate_online_response env self prompt) st)
  <= S (remote_calls st).
Proof.
  pose proof (online_attempt_trace prompt st) as Ht.
  pose proof (attempt_events_remote prompt) as Hr.
  unfold remote_calls, generate_online_response.
  set (st1 := after (online_attempt env self prompt) st) in *.
  destruct (result (online_attempt env self prompt) st) as [t|e] eqn:R.
  - unfold after at 1. rewrite (try_except_ok _ _ _ _ R). simpl.
    fold st1. rewrite Ht, List.filter_app, length_app. lia.
  - unfold after at 1. rewrite (try_except_raise _ _ _ _ R). fold st1.
    destruct (offline_mode_available self); simpl.
    + destruct (generate_offline_response_trace prompt st1)
        as (evs & Hevs & Hloc).
      unfold after in Hevs. rewrite Hevs, Ht.
      rewrite !List.filter_app, !length_app, Hloc. simpl. lia.
    + rewrite Ht, List.filter_app, length_app. lia.
Qed.

End RemoteFailure.

Lemma online_failure_not_canned e prompt :
  ONLINE_FAILURE e <> generate_fallback_response prompt.
Proof.
  unfold generate_fallback_response.
  repeat match goal with |- context [if ?b then _ else _] => destruct b end;
    discriminate.
Qed.

(** C2, as the code has it. When the remote attempt fails, whatever the failure,
    no second remote call is made; the local backend is run if it is
    configured, and otherwise the text returned is the apology that quotes
    the failure, which is none of the four canned texts. *)
Theorem remote_failure_falls_back
    (env : Env) (self : AIEngine) (prompt : string) (st : State) (e : pyexn) :
  result (online_attempt env self prompt) st = Raise e ->
  let st1 := after (online_attempt env self prompt) st in
  generate_online_response env self prompt st
  = (if offline_mode_available self
     then generate_offline_response env self prompt st1
     else (Ok (ONLINE_FAILURE e), st1))
  /\ trace st1 = (trace st ++ attempt_events self prompt)%list
  /\ remote_calls (after (generate_online_response env self prompt) st)
     <= S (remote_calls st)
  /\ forall p, ONLINE_FAILURE e <> generate_fallback_response p.
Proof.
  intros H st1. split; [|split; [|split]].
  - unfold generate_online_response.
    rewrite (try_except_raise _ _ _ _ H). fold st1.
    destruct (offline_mode_available self); reflexivity.
  - apply online_attempt_trace.
  - apply generate_online_response_remote_calls.
  - intros p. apply online_failure_not_canned.
Qed.

Lemma remote_failure_falls_back_witness :
  result (online_attempt env_down engine_remote "explain this") st_init
  = Raise (Exn OtherError "Connection error.")
  /\ generate_online_response env_down engine_remote "explain this" st_init
     = (Ok (ONLINE_FAILURE (Exn OtherError "Connection error.")),
        after (online_attempt env_down engine_remote "explain this") st_init).
Proof.
  assert (H : result (online_attempt env_down engine_remote "explain this")
                st_init
              = Raise (Exn OtherError "Connection error.")) by reflexivity.
  split; [exact H|].
  exact (proj1 (remote_failure_falls_back env_down engine_remote
                  "explain this" st_init _ H)).
Defined.

(** C2, counterexample. The remote attempt fails and no local backend is
    configured: the text returned is not the canned fallback text. *)
Lemma remote_failure_not_canned_text :
  result (online_attempt env_down engine_remote "explain this") st_init
  = Raise (Exn OtherError "Connection error.")
  /\ offline_mode_available engine_remote = false
  /\ result (generate_online_response env_down engine_remote "explain this")
       st_init
     = Ok "Sorry, I couldn't process your request. Error: Connection error."
  /\ result (generate_online_response env_down engine_remote "explain this")
       st_init
     <> Ok (generate_fallback_response "explain this").
Proof.
  split; [reflexivity|]. split; [reflexivity|]. split; [reflexivity|].
  vm_compute. discriminate.
Qed.

(** ** The scratch file of the local backend *)

Section ScratchFile.

Variable env : Env.
Variable self : AIEngine.

(** When the process ends in time the scratch file is removed, whatever
    the exit code. *)
Lemma offline_completed_unlinks prompt st path res :
  mkstemp env (tmp_serial st) = Ok path ->
  write_error env path prompt = None ->
  subprocess_run env (llama_cmd self path) (<[path := prompt]> (files st))
  = Ok res ->
  files (after (generate_offline_response env self prompt) st)
  = delete path (files st).
Proof.
  intros Hm Hw Hr.
  unfold generate_offline_response, after, try_except, mbind, M_bind,
    write_prompt_file, run_llama, unlink, log_event, get_files, lift,
    mret, M_ret.
  rewrite Hm, Hw. simpl. rewrite Hr. simpl.
  rewrite lookup_insert_eq. simpl.
  destruct (returncode res =? 0)%Z; simpl; apply delete_insert_eq.
Qed.

(** When the process runs out of time the text is the timeout message and
    the scratch file is still there. *)
Lemma offline_timeout_leaves_file prompt st path e :
  mkstemp env (tmp_serial st) = Ok path ->
  write_error env path prompt = None ->
  subprocess_run env (llama_cmd self path) (<[path := prompt]> (files st))
  = Raise e ->
  is_timeout e = true ->
  result (generate_offline_response env self prompt) st = Ok TIMEOUT_MESSAGE
  /\ files (after (generate_offline_response env self prompt) st) !! path
     = Some prompt.
Proof.
  intros Hm Hw Hr Ht.
  unfold generate_offline_response, result, after, try_except, mbind,
    M_bind, write_prompt_file, run_llama, unlink, log_event, get_files,
    lift, mret, M_ret.
  rewrite Hm, Hw. simpl. rewrite Hr. simpl. rewrite Ht. simpl.
  split; [reflexivity | apply lookup_insert_eq].
Qed.

End ScratchFile.

(** C5, the code at the failing input. The local process exceeds its time
    on an offline chat request: the reply is the timeout message inside a
    success envelope, and the scratch file written for the run is still on
    disk afterwards, while a run that ends in time leaves no file. *)
Theorem offline_timeout_keeps_scratch_file :
  let request env :=
    process_request env engine_local (PyStr "chat") (PyStr "hi")
      (PyStr "teacher") (PyStr "offline") (PyDict []) in
  let prompt := chat_prompt teacher_config (PyStr "hi") in
  result (request env_down) st_init
  = Ok (success_envelope env_down TIMEOUT_MESSAGE (PyStr "chat")
          (PyStr "teacher") (PyStr "offline"))
  /\ files (after (request env_down) st_init) !! "/tmp/tmp0.txt" = Some prompt
  /\ files (after (request env_echo) st_init) !! "/tmp/tmp0.txt" = None
  /\ result (generate_offline_response env_down engine_local "hello") st_init
     = Ok TIMEOUT_MESSAGE
  /\ files (after (generate_offline_response env_down engine_local "hello")
              st_init) !! "/tmp/tmp0.txt" = Some "hello".
Proof.
  split; [reflexivity|]. split; [reflexivity|].
  split; [vm_compute; reflexivity|].
  split; reflexivity.
Qed.

(** ** The engine sends nothing on the websocket *)

Create HintDb outbox.

Lemma keeps_outbox_mret {A : Type} (a : A) : keeps_outbox (mret a).
Proof. intros st. split; reflexivity. Qed.

Lemma keeps_outbox_raise {A : Type} (e : pyexn) : keeps_outbox (@raise A e).
Proof. intros st. split; reflexivity. Qed.

Lemma keeps_outbox_lift {A : Type} (r : Result A) : keeps_outbox (lift r).
Proof. intros st. split; reflexivity. Qed.

Lemma keeps_outbox_bind {A B : Type} (m : M A) (f : A -> M B) :
  keeps_outbox m -> (forall a, keeps_outbox (f a)) -> keeps_outbox (m ≫= f).
Proof.
  intros Hm Hf st. destruct (Hm st) as [Ho Hs].
  unfold after, mbind, M_bind in *.
  destruct (m st) as [[a|e] st1]; simpl in *; [|now split].
  rewrite <- Ho, <- Hs. apply Hf.
Qed.

Lemma keeps_outbox_try {A : Type} (body : M A) (handler : pyexn -> M A) :
  keeps_outbox body -> (forall e, keeps_outbox (handler e)) ->
  keeps_outbox (try_except body handler).
Proof.
  intros Hm Hf st. destruct (Hm st) as [Ho Hs].
  unfold after, try_except in *.
  destruct (body st) as [[a|e] st1]; simpl in *; [now split|].
  rewrite <- Ho, <- Hs. apply Hf.
Qed.

Lemma keeps_outbox_if {A : Type} (b : bool) (m1 m2 : M A) :
  keeps_outbox m1 -> keeps_outbox m2 -> keeps_outbox (if b then m1 else m2).
Proof. destruct b; auto. Qed.

Lemma keeps_outbox_log_event ev : keeps_outbox (log_event ev).
Proof. intros st. split; reflexivity. Qed.

Lemma keeps_outbox_get_files : keeps_outbox get_files.
Proof. intros st. split; reflexivity. Qed.

#[local] Hint Resolve keeps_outbox_mret keeps_outbox_raise keeps_outbox_lift
  keeps_outbox_log_event keeps_outbox_get_files : outbox.

Ltac outbox_step :=
  first
    [ solve [auto with outbox]
    | apply keeps_outbox_bind; [|intros ?]
    | apply keeps_outbox_try; [|intros ?]
    | apply keeps_outbox_if ].

Section EngineOutbox.

Variable env : Env.
Variable self : AIEngine.

Lemma keeps_outbox_write_prompt_file prompt :
  keeps_outbox (write_prompt_file env prompt).
Proof.
  intros st. unfold after, write_prompt_file.
  destruct (mkstemp env (tmp_serial st)) as [path|e]; [|now split].
  destruct (write_error env path prompt); now split.
Qed.

Lemma keeps_outbox_unlink path : keeps_outbox (unlink path).
Proof.
  intros st. unfold after, unlink.
  destruct (files st !! path); now split.
Qed.

Hint Resolve keeps_outbox_write_prompt_file keeps_outbox_unlink : outbox.

Lemma keeps_outbox_offline prompt :
  keeps_outbox (generate_offline_response env self prompt).
Proof.
  unfold generate_offline_response, run_llama. repeat outbox_step.
Qed.

Lemma keeps_outbox_online prompt :
  keeps_outbox (generate_online_response env self prompt).
Proof.
  unfold generate_online_response, online_attempt, call_openai_api,
    call_groq_api.
  pose proof (keeps_outbox_offline prompt).
  repeat outbox_step.
Qed.

Lemma keeps_outbox_generate_response prompt mode :
  keeps_outbox (generate_response env self prompt mode).
Proof.
  unfold generate_response.
  pose proof (keeps_outbox_offline prompt).
  pose proof (keeps_outbox_online prompt).
  repeat outbox_step.
Qed.

End EngineOutbox.

(** ** The envelopes of process_request *)

Section Envelopes.

Variable env : Env.

Lemma success_envelope_fields response action persona mode :
  let m := success_envelope env response action persona mode in
  m !! "success" = Some (PyBool true)
  /\ m !! "response" = Some (PyStr response)
  /\ m !! "error" = None
  /\ m !! "action" = Some action
  /\ m !! "persona" = Some persona
  /\ m !! "mode" = Some mode.
Proof. repeat split. Qed.

Lemma failure_envelope_fields e action :
  let m := failure_envelope env e action in
  m !! "success" = Some (PyBool false)
  /\ m !! "error" = Some (PyStr (exn_str e))
  /\ m !! "response" = None
  /\ m !! "action" = Some action
  /\ m !! "persona" = None
  /\ m !! "mode" = None.
Proof. repeat split. Qed.

Lemma error_response_fields text :
  let m := error_response env text in
  m !! "success" = Some (PyBool false)
  /\ m !! "error" = Some (PyStr text)
  /\ m !! "response" = None.
Proof. repeat split. Qed.

Lemma success_envelope_ok response action persona mode :
  envelope_ok (success_envelope env response action persona mode).
Proof.
  left. destruct (success_envelope_fields response action persona mode)
    as (H1 & H2 & H3 & _).
  split; [exact H1|]. split; [rewrite H2; eauto | exact H3].
Qed.

Lemma failure_envelope_ok e action :
  envelope_ok (failure_envelope env e action).
Proof.
  right. destruct (failure_envelope_fields e action) as (H1 & H2 & H3 & _).
  split; [exact H1|]. split; [rewrite H2; eauto | exact H3].
Qed.

Lemma error_response_ok text : envelope_ok (error_response env text).
Proof.
  right. destruct (error_response_fields text) as (H1 & H2 & H3).
  split; [exact H1|]. split; [rewrite H2; eauto | exact H3].
Qed.

End Envelopes.

(** A [try] block that wraps the value of [inner], with a handler that
    wraps the exception: the outcome is one of the two wrappings. *)
Lemma try_wrap_shape {A B : Type} (inner : M A) (f : A -> B) (h : pyexn -> B) st :
  let m := try_except (inner ≫= fun a => mret (f a)) (fun e => mret (h e)) in
  (exists a, result inner st = Ok a /\ m st = (Ok (f a), after inner st))
  \/ (exists e, result inner st = Raise e /\ m st = (Ok (h e), after inner st)).
Proof.
  unfold try_except, mbind, M_bind, mret, M_ret, result, after. simpl.
  destruct (inner st) as [[a|e] st1]; simpl; eauto.
Qed.

Section ProcessRequest.

Variable env : Env.
Variable ai_engine : AIEngine.

(** [process_request] returns the success dict or the failure dict. *)
Lemma process_request_shape action content persona mode options st :
  exists st',
    (exists response,
        process_request env ai_engine action content persona mode options st
        = (Ok (success_envelope env response action persona mode), st'))
    \/ (exists e,
           process_request env ai_engine action content persona mode options st
           = (Ok (failure_envelope env e action), st')).
Proof.
  unfold process_request.
  match goal with
  | |- context [try_except (?inner ≫= _) _] =>
      destruct (try_wrap_shape inner
                  (fun r => success_envelope env r action persona mode)
                  (fun e => failure_envelope env e action) st)
        as [(a & _ & H) | (e & _ & H)];
      exists (after inner st); [left; exists a | right; exists e]; exact H
  end.
Qed.

Lemma keeps_outbox_process_request action content persona mode options :
  keeps_outbox
    (process_request env ai_engine action content persona mode options).
Proof.
  pose proof (keeps_outbox_generate_response env ai_engine).
  unfold process_request, explain_code, translate_code, optimize_code,
    chat, fix_error.
  repeat outbox_step.
Qed.

End ProcessRequest.

(** C7, as the code has it. The envelope of a request always carries the action
    of the request; the success envelope also carries its persona and its
    mode, and the failure envelope has neither field. *)
Theorem envelope_echo
    (env : Env) (ai_engine : AIEngine)
    (action content persona mode options : pyval) (st : State) :
  exists m,
    result (process_request env ai_engine action content persona mode options) st
    = Ok m
    /\ m !! "action" = Some action
    /\ ((m !! "success" = Some (PyBool true)
         /\ m !! "persona" = Some persona /\ m !! "mode" = Some mode)
        \/ (m !! "success" = Some (PyBool false)
            /\ m !! "persona" = None /\ m !! "mode" = None)).
Proof.
  destruct (process_request_shape env ai_engine action content persona mode
              options st) as (st' & [(r & H) | (e & H)]);
    unfold result; rewrite H; simpl; eexists; (split; [reflexivity|]).
  - destruct (success_envelope_fields env r action persona mode)
      as (H1 & _ & _ & H4 & H5 & H6).
    split; [exact H4 | left; auto].
  - destruct (failure_envelope_fields env e action)
      as (H1 & _ & _ & H4 & H5 & H6).
    split; [exact H4 | right; auto].
Qed.

(** C7, counterexample. A translate request whose options are null ends in
    the failure envelope, which has no persona and no mode field. *)
Lemma failure_envelope_drops_persona_and_mode :
  exists m,
    result (process_request env_down engine_none (PyStr "translate")
              (PyStr "x = 1") (PyStr "teacher") (PyStr "online") PyNone)
      st_init
    = Ok m
    /\ m !! "success" = Some (PyBool false)
    /\ m !! "persona" <> Some (PyStr "teacher")
    /\ m !! "mode" <> Some (PyStr "online").
Proof.
  eexists. split; [reflexivity|].
  split; [reflexivity|]. split; discriminate.
Qed.

(** ** What handle_message sends *)

Section HandleMessage.

Variable env : Env.
Variable ai_engine : AIEngine.

(** A send appends its message, or fails and appends nothing. *)
Lemma ws_send_sent msg st :
  envelope_ok msg ->
  exists sent,
    outbox (after (ws_send env msg) st) = (outbox st ++ sent)%list
    /\ Forall envelope_ok sent
    /\ (send_error env (sends st) = None -> length sent = 1).
Proof.
  intros Hok. unfold after, ws_send.
  destruct (send_error env (sends st)); simpl.
  - exists []. rewrite app_nil_r. repeat split; [constructor | discriminate].
  - exists [msg]. repeat split. now constructor.
Qed.

(** The two [except] clauses send one of the error dicts. *)
Lemma handler_sent e st :
  exists sent,
    outbox (after (if is_json_error e
                   then ws_send env (error_response env "Invalid JSON format")
                   else ws_send env (error_response env (exn_str e))) st)
    = (outbox st ++ sent)%list
    /\ Forall envelope_ok sent
    /\ (send_error env (sends st) = None -> length sent = 1).
Proof.
  destruct (is_json_error e); apply ws_send_sent, error_response_ok.
Qed.

(** Every message [handle_message] sends is a well-formed envelope, and
    one message is sent when the first send goes through. *)
Lemma handle_message_sent message st :
  exists sent,
    outbox (after (handle_message env ai_engine message) st)
    = (outbox st ++ sent)%list
    /\ Forall envelope_ok sent
    /\ (send_error env (sends st) = None -> length sent = 1).
Proof.
  unfold handle_message, after at 1, try_except.
  unfold mbind at 1, M_bind at 1, lift at 1.
  destruct (json_loads env message) as [data|e]; [|apply handler_sent].
  destruct data as [|b|z|s|l|d];
    try (apply (ws_send_sent _ st), error_response_ok).
  unfold value_get, lift, mbind, M_bind.
  set (action := default PyNone (Py.assoc "action" d)).
  set (content := default (PyStr "") (Py.assoc "content" d)).
  set (persona := default (PyStr "teacher") (Py.assoc "persona" d)).
  set (mode := default (PyStr "online") (Py.assoc "mode" d)).
  set (options := default (PyDict []) (Py.assoc "options" d)).
  destruct (keeps_outbox_process_request env ai_engine action content
              persona mode options st) as [Hk Hn].
  destruct (process_request_shape env ai_engine action content persona
              mode options st) as (st1 & Hshape).
  assert (Hm : exists m,
             process_request env ai_engine action content persona mode
               options st = (Ok m, st1) /\ envelope_ok m).
  { destruct Hshape as [(r & H) | (e & H)]; eexists; (split; [exact H|]).
    - apply success_envelope_ok.
    - apply failure_envelope_ok. }
  destruct Hm as (m & Hm & Hok).
  unfold after in Hk, Hn. rewrite Hm in *. simpl in Hk, Hn.
  destruct (ws_send_sent m st1 Hok) as (sent & Hs & Hf & Hl).
  unfold after in Hs. rewrite Hn in Hl.
  assert (Hfail : forall e st2, ws_send env m st1 = (Raise e, st2) ->
                                send_error env (sends st) <> None).
  { intros e st2 He. unfold ws_send in He. rewrite Hn in He.
    destruct (send_error env (sends st)); [discriminate | inversion He]. }
  destruct (ws_send env m st1) as [[[]|e] st2] eqn:Hsend; simpl in *.
  - exists sent. rewrite Hs, Hk. auto.
  - destruct (handler_sent e st2) as (sent' & Hs' & Hf' & _).
    exists (sent ++ sent')%list. unfold after in Hs'.
    rewrite Hs', Hs, Hk, app_assoc.
    split; [reflexivity|]. split; [now apply Forall_app|].
    intros Hnone. now destruct (Hfail e st2 eq_refl).
Qed.

End HandleMessage.

(** C9. Every envelope built for a request has exactly one of response and
    error: the envelope [process_request] returns, and each message that
    [handle_message] sends, has response and no error when success is
    true, and error and no response when success is false. *)
Theorem envelope_invariant
    (env : Env) (ai_engine : AIEngine)
    (action content persona mode options : pyval)
    (message : string) (st : State) :
  (exists m,
      result (process_request env ai_engine action content persona mode options)
        st = Ok m
      /\ envelope_ok m)
  /\ (exists sent,
         outbox (after (handle_message env ai_engine message) st)
         = (outbox st ++ sent)%list
         /\ Forall envelope_ok sent
         /\ (send_error env (sends st) = None -> length sent = 1)).
Proof.
  split; [|apply handle_message_sent].
  destruct (process_request_shape env ai_engine action content persona mode
              options st) as (st' & [(r & H) | (e & H)]);
    unfold result; rewrite H; simpl; eexists; (split; [reflexivity|]).
  - apply success_envelope_ok.
  - apply failure_envelope_ok.
Qed.

Lemma envelope_invariant_witness :
  send_error env_echo (sends st_init) = None
  /\ exists sent,
       outbox (after (handle_message env_echo engine_none "{}") st_init)
       = (outbox st_init ++ sent)%list
       /\ Forall envelope_ok sent
       /\ length sent = 1.
Proof.
  destruct (envelope_invariant env_echo engine_none PyNone PyNone PyNone
              PyNone PyNone "{}" st_init) as (_ & sent & H1 & H2 & H3).
  split; [reflexivity|].
  exists sent. split; [exact H1|]. split; [exact H2|].
  apply H3. reflexivity.
Defined.

(** ** Persona lookup *)

Lemma personas_teacher : personas !!! "teacher" = teacher_config.
Proof. reflexivity. Qed.

Lemma personas_hacker : personas !!! "hacker" = hacker_config.
Proof. reflexivity. Qed.

Lemma personas_reviewer : personas !!! "reviewer" = reviewer_config.
Proof. reflexivity. Qed.

(** A hashable key that is none of the three names gets the default. *)
Lemma dict_get_unknown (persona : pyval) (dflt : persona_config) :
  Py.hashable persona = true ->
  persona <> PyStr "teacher" ->
  persona <> PyStr "hacker" ->
  persona <> PyStr "reviewer" ->
  dict_get personas persona dflt = Ok dflt.
Proof.
  intros Hh H1 H2 H3.
  destruct persona as [|b|z|s|l|d]; simpl in *; try reflexivity;
    try discriminate.
  unfold personas.
  rewrite !lookup_insert_ne, lookup_empty by congruence.
  reflexivity.
Qed.

(** C6, as the code has it. A persona id that is none of teacher, hacker and
    reviewer never makes the lookup fail, and resolves to the default of
    the action: teacher for explain, translate and chat, hacker for
    optimize, reviewer for fix_error. *)
Theorem unknown_persona_defaults
    (env : Env) (self : AIEngine)
    (code target_language error_message mode persona : pyval) :
  Py.hashable persona = true ->
  persona <> PyStr "teacher" ->
  persona <> PyStr "hacker" ->
  persona <> PyStr "reviewer" ->
  explain_code env self code persona mode
  = generate_response env self (explain_prompt teacher_config code) mode
  /\ translate_code env self code target_language persona mode
     = generate_response env self
         (translate_prompt teacher_config code target_language) mode
  /\ optimize_code env self code persona mode
     = generate_response env self (optimize_prompt hacker_config code) mode
  /\ chat env self code persona mode
     = generate_response env self (chat_prompt teacher_config code) mode
  /\ fix_error env self code error_message persona mode
     = generate_response env self
         (fix_error_prompt reviewer_config code error_message) mode.
Proof.
  intros Hh H1 H2 H3.
  unfold explain_code, translate_code, optimize_code, chat, fix_error.
  rewrite !(dict_get_unknown persona _ Hh H1 H2 H3).
  rewrite personas_teacher, personas_hacker, personas_reviewer.
  repeat split.
Qed.

Lemma unknown_persona_defaults_witness :
  Py.hashable (PyStr "pirate") = true
  /\ PyStr "pirate" <> PyStr "teacher"
  /\ PyStr "pirate" <> PyStr "hacker"
  /\ PyStr "pirate" <> PyStr "reviewer"
  /\ optimize_code env_echo engine_remote (PyStr "x = 1") (PyStr "pirate")
       (PyStr "online")
     = generate_response env_echo engine_remote
         (optimize_prompt hacker_config (PyStr "x = 1")) (PyStr "online").
Proof.
  assert (H1 : PyStr "pirate" <> PyStr "teacher") by discriminate.
  assert (H2 : PyStr "pirate" <> PyStr "hacker") by discriminate.
  assert (H3 : PyStr "pirate" <> PyStr "reviewer") by discriminate.
  split; [reflexivity|].
  split; [exact H1|]. split; [exact H2|]. split; [exact H3|].
  exact (proj1 (proj2 (proj2
           (unknown_persona_defaults env_echo engine_remote (PyStr "x = 1")
              PyNone PyNone (PyStr "online") (PyStr "pirate")
              eq_refl H1 H2 H3)))).
Defined.

(** C6, counterexample. An optimize request with an unknown persona is
    composed with the hacker profile, not with the teacher profile: the
    service that echoes its prompt gives two different texts. *)
Lemma optimize_unknown_persona_is_hacker :
  result (optimize_code env_echo engine_remote (PyStr "x = 1")
            (PyStr "pirate") (PyStr "online")) st_init
  = Ok (Str.strip (optimize_prompt hacker_config (PyStr "x = 1")))
  /\ result (optimize_code env_echo engine_remote (PyStr "x = 1")
               (PyStr "pirate") (PyStr "online")) st_init
     <> result (generate_response env_echo engine_remote
                  (optimize_prompt teacher_config (PyStr "x = 1"))
                  (PyStr "online")) st_init.
Proof.
  split; [reflexivity|]. vm_compute. discriminate.
Qed.

(** ** Requests without any backend, and unknown actions *)

Lemma generate_response_no_backend env self prompt mode st :
  online_mode_available self = false ->
  offline_mode_available self = false ->
  generate_response env self prompt mode st
  = (Ok (generate_fallback_response prompt), st).
Proof.
  intros H1 H2. unfold generate_response.
  now rewrite H1, H2, !andb_false_r.
Qed.








Lemma unknown_action_text_lists_actions action :
  Str.contains "explain, translate, optimize, chat, fix_error"
    (UNKNOWN_ACTION action) = true.
Proof.
  unfold UNKNOWN_ACTION.
  apply StrFacts.contains_app_r, StrFacts.contains_app_r.
  reflexivity.
Qed.

(** C4. An action that is none of the five is answered with the success
    envelope that carries the 'unknown action' text, which lists the five
    actions; the world is left as it was (no backend is called, no file is
    written) and the envelope has no error field. *)
Theorem unknown_action_reply
    (env : Env) (ai_engine : AIEngine)
    (action content persona mode options : pyval) (st : State) :
  action <> PyStr "explain" ->
  action <> PyStr "translate" ->
  action <> PyStr "optimize" ->
  action <> PyStr "chat" ->
  action <> PyStr "fix_error" ->
  let m := success_envelope env (UNKNOWN_ACTION action) action persona mode in
  process_request env ai_engine action content persona mode options st
  = (Ok m, st)
  /\ m !! "success" = Some (PyBool true)
  /\ m !! "response" = Some (PyStr (UNKNOWN_ACTION action))
  /\ m !! "error" = None
  /\ UNKNOWN_ACTION action
     = "Unknown action: " ++ Py.str action
       ++ ". Available actions: explain, translate, optimize, chat, fix_error"
  /\ Str.contains "explain, translate, optimize, chat, fix_error"
       (UNKNOWN_ACTION action) = true.
Proof.
  intros H1 H2 H3 H4 H5 m.
  split.
  - unfold process_request.
    rewrite (eq_str_false _ _ H1), (eq_str_false _ _ H2),
      (eq_str_false _ _ H3), (eq_str_false _ _ H4), (eq_str_false _ _ H5).
    reflexivity.
  - destruct (success_envelope_fields env (UNKNOWN_ACTION action) action
                persona mode) as (F1 & F2 & F3 & _).
    split; [exact F1|]. split; [exact F2|]. split; [exact F3|].
    split; [reflexivity | apply unknown_action_text_lists_actions].
Qed.

Lemma unknown_action_reply_witness :
  PyStr "refactor" <> PyStr "explain"
  /\ PyStr "refactor" <> PyStr "translate"
  /\ PyStr "refactor" <> PyStr "optimize"
  /\ PyStr "refactor" <> PyStr "chat"
  /\ PyStr "refactor" <> PyStr "fix_error"
  /\ process_request env_down engine_both (PyStr "refactor") (PyStr "x = 1")
       (PyStr "teacher") (PyStr "online") PyNone st_init
     = (Ok (success_envelope env_down
              "Unknown action: refactor. Available actions: explain, translate, optimize, chat, fix_error"
              (PyStr "refactor") (PyStr "teacher") (PyStr "online")),
        st_init).
Proof.
  assert (H1 : PyStr "refactor" <> PyStr "explain") by discriminate.
  assert (H2 : PyStr "refactor" <> PyStr "translate") by discriminate.
  assert (H3 : PyStr "refactor" <> PyStr "optimize") by discriminate.
  assert (H4 : PyStr "refactor" <> PyStr "chat") by discriminate.
  assert (H5 : PyStr "refactor" <> PyStr "fix_error") by discriminate.
  split; [exact H1|]. split; [exact H2|]. split; [exact H3|].
  split; [exact H4|]. split; [exact H5|].
  exact (proj1 (unknown_action_reply env_down engine_both (PyStr "refactor")
                  (PyStr "x = 1") (PyStr "teacher") (PyStr "online") PyNone
                  st_init H1 H2 H3 H4 H5)).
Defined.

(** * Further properties of the engine *)

(** ** What one request does to the backends *)

Section RequestEvents.

Variable env : Env.
Variable self : AIEngine.

(** The local backend starts the process at most once. *)
Lemma generate_offline_response_events prompt st :
  exists evs,
    trace (after (generate_offline_response env self prompt) st)
    = (trace st ++ evs)%list
    /\ (evs = [] \/ exists path, evs = [LlamaRun (llama_cmd self path)]).
Proof.
  unfold generate_offline_response, after, try_except, mbind, M_bind,
    write_prompt_file, run_llama, unlink, log_event, get_files, lift,
    mret, M_ret.
  destruct (mkstemp env (tmp_serial st)) as [path|e]; simpl.
  2: { exists []. rewrite app_nil_r.
       split; [destruct (is_timeout e); reflexivity | now left]. }
  destruct (write_error env path prompt) as [e|]; simpl.
  { exists []. rewrite app_nil_r.
    split; [destruct (is_timeout e); reflexivity | now left]. }
  exists [LlamaRun (llama_cmd self path)].
  split; [|right; now exists path].
  destruct (subprocess_run env (llama_cmd self path)
              (<[path:=prompt]> (files st))) as [res|e]; simpl.
  - rewrite lookup_insert_eq. simpl.
    destruct (returncode res =? 0)%Z; reflexivity.
  - destruct (is_timeout e); reflexivity.
Qed.

Lemma online_attempt_files prompt st :
  files (after (online_attempt env self prompt) st) = files st.
Proof.
  unfold online_attempt, after.
  destruct (key_truthy (openai_api_key self)).
  - unfold call_openai_api, try_except, mbind, M_bind, log_event, lift,
      mret, M_ret, raise. simpl.
    destruct (openai_create env (openai_api_key self) prompt) as [t|e];
      simpl; [reflexivity|].
    destruct (is_import_error e); reflexivity.
  - destruct (key_truthy (groq_api_key self)); [|reflexivity].
    unfold call_groq_api, try_except, mbind, M_bind, log_event, lift,
      mret, M_ret, raise. simpl.
    destruct (groq_post env (groq_api_key self) prompt) as [t|e];
      simpl; [reflexivity|].
    destruct (is_import_error e); reflexivity.
Qed.

(** A text that comes back from a remote slot is trimmed, and a slot was
    called. *)
Lemma online_attempt_ok prompt st text :
  result (online_attempt env self prompt) st = Ok text ->
  Str.strip text = text /\ attempt_events self prompt <> [].
Proof.
  unfold online_attempt, attempt_events, result.
  destruct (key_truthy (openai_api_key self)).
  - unfold call_openai_api, try_except, mbind, M_bind, log_event, lift,
      mret, M_ret, raise. simpl.
    destruct (openai_create env (openai_api_key self) prompt) as [t|e];
      simpl.
    + intros [= <-]. split; [apply StrFacts.strip_idem | discriminate].
    + destruct (is_import_error e); discriminate.
  - destruct (key_truthy (groq_api_key self)); [|discriminate].
    unfold call_groq_api, try_except, mbind, M_bind, log_event, lift,
      mret, M_ret, raise. simpl.
    destruct (groq_post env (groq_api_key self) prompt) as [t|e];
      simpl.
    + intros [= <-]. split; [apply StrFacts.strip_idem | discriminate].
    + destruct (is_import_error e); discriminate.
Qed.

(** The events of the remote path: the attempt, then at most one run of
    the local process, and none when the attempt gave a text. *)
Lemma generate_online_response_events prompt st :
  exists local,
    trace (after (generate_online_response env self prompt) st)
    = (trace st ++ attempt_events self prompt ++ local)%list
    /\ (local = [] \/ exists path, local = [LlamaRun (llama_cmd self path)]).
Proof.
  pose proof (online_attempt_trace env self prompt st) as Ht.
  unfold generate_online_response.
  set (st1 := after (online_attempt env self prompt) st) in *.
  destruct (result (online_attempt env self prompt) st) as [t|e] eqn:R.
  - exists []. unfold after at 1.
    rewrite (try_except_ok _ _ _ _ R). simpl. fold st1.
    rewrite Ht, app_nil_r. split; [reflexivity | now left].
  - unfold after at 1. rewrite (try_except_raise _ _ _ _ R). fold st1.
    destruct (offline_mode_available self); simpl.
    + destruct (generate_offline_response_events prompt st1)
        as (evs & Hevs & Hshape).
      exists evs. unfold after in Hevs.
      rewrite Hevs, Ht, app_assoc. split; [reflexivity | exact Hshape].
    + exists []. rewrite Ht, app_nil_r. split; [reflexivity | now left].
Qed.

End RequestEvents.

Lemma attempt_events_shape self prompt :
  length (attempt_events self prompt) <= 1
  /\ Forall (fun ev => is_remote ev = true) (attempt_events self prompt).
Proof.
  unfold attempt_events.
  destruct (key_truthy (openai_api_key self)); simpl.
  - split; [lia | repeat constructor].
  - destruct (key_truthy (groq_api_key self)); simpl;
      (split; [lia | repeat constructor]).
Qed.

(** X1. One request does at most one remote call and at most one run of
    the local process, and a remote call comes before the run. *)
Theorem request_events_shape
    (env : Env) (self : AIEngine) (prompt : string) (mode : pyval) (st : State) :
  exists remote local,
    trace (after (generate_response env self prompt mode) st)
    = (trace st ++ remote ++ local)%list
    /\ length remote <= 1 /\ length local <= 1
    /\ Forall (fun ev => is_remote ev = true) remote
    /\ Forall (fun ev => is_remote ev = false) local.
Proof.
  assert (Hlocal : forall local : list event,
             (local = [] \/
              exists path, local = [LlamaRun (llama_cmd self path)]) ->
             length local <= 1
             /\ Forall (fun ev => is_remote ev = false) local).
  { intros local [-> | (path & ->)]; simpl;
      (split; [lia | repeat constructor]). }
  assert (Hon : exists remote local,
             trace (after (generate_online_response env self prompt) st)
             = (trace st ++ remote ++ local)%list
             /\ length remote <= 1 /\ length local <= 1
             /\ Forall (fun ev => is_remote ev = true) remote
             /\ Forall (fun ev => is_remote ev = false) local).
  { destruct (generate_online_response_events env self prompt st)
      as (local & Ht & Hs).
    destruct (attempt_events_shape self prompt) as [Hl Hr].
    destruct (Hlocal local Hs) as [Hl' Hr'].
    exists (attempt_events self prompt), local. auto. }
  assert (Hoff : exists remote local,
             trace (after (generate_offline_response env self prompt) st)
             = (trace st ++ remote ++ local)%list
             /\ length remote <= 1 /\ length local <= 1
             /\ Forall (fun ev => is_remote ev = true) remote
             /\ Forall (fun ev => is_remote ev = false) local).
  { destruct (generate_offline_response_events env self prompt st)
      as (local & Ht & Hs).
    destruct (Hlocal local Hs) as [Hl' Hr'].
    exists [], local. simpl. repeat split; auto. }
  unfold generate_response.
  destruct (Py.eq_str mode "online" && online_mode_available self);
    [exact Hon|].
  destruct (Py.eq_str mode "offline" && offline_mode_available self);
    [exact Hoff|].
  destruct (online_mode_available self); [exact Hon|].
  destruct (offline_mode_available self); [exact Hoff|].
  exists [], []. simpl. rewrite app_nil_r.
  split; [reflexivity|]. split; [lia|]. split; [lia|]. split; constructor.
Qed.

(** X2. A remote slot that gives a text ends the request: the text is the
    reply, it carries no white space around it, one remote call was made,
    the local process is not run and no file is written. *)
Theorem remote_success_is_final
    (env : Env) (self : AIEngine) (prompt : string) (st : State) (text : string) :
  result (online_attempt env self prompt) st = Ok text ->
  let st1 := after (generate_online_response env self prompt) st in
  result (generate_online_response env self prompt) st = Ok text
  /\ Str.strip text = text
  /\ trace st1 = (trace st ++ attempt_events self prompt)%list
  /\ length (attempt_events self prompt) = 1
  /\ files st1 = files st
  /\ tmp_serial st1 = tmp_serial st.
Proof.
  intros H st1. subst st1.
  destruct (online_attempt_ok env self prompt st text H) as [Hs Hne].
  pose proof (proj1 (attempt_events_shape self prompt)) as Hlen.
  unfold generate_online_response, result, after.
  rewrite (try_except_ok _ _ _ _ H). simpl.
  split; [reflexivity|]. split; [exact Hs|].
  split; [apply online_attempt_trace|].
  split; [destruct (attempt_events self prompt) as [|ev l]; simpl in *;
          [congruence | lia]|].
  split; [apply online_attempt_files|].
  unfold online_attempt, after.
  destruct (key_truthy (openai_api_key self)).
  - unfold call_openai_api, try_except, mbind, M_bind, log_event, lift,
      mret, M_ret, raise. simpl.
    destruct (openai_create env (openai_api_key self) prompt) as [t|e];
      simpl; [reflexivity|].
    destruct (is_import_error e); reflexivity.
  - destruct (key_truthy (groq_api_key self)); [|reflexivity].
    unfold call_groq_api, try_except, mbind, M_bind, log_event, lift,
      mret, M_ret, raise. simpl.
    destruct (groq_post env (groq_api_key self) prompt) as [t|e];
      simpl; [reflexivity|].
    destruct (is_import_error e); reflexivity.
Qed.

Lemma remote_success_is_final_witness :
  result (online_attempt env_echo engine_both "  hello ") st_init = Ok "hello"
  /\ result (generate_online_response env_echo engine_both "  hello ") st_init
     = Ok "hello"
  /\ files (after (generate_online_response env_echo engine_both "  hello ")
              st_init) = files st_init.
Proof.
  assert (H : result (online_attempt env_echo engine_both "  hello ") st_init
              = Ok "hello") by reflexivity.
  destruct (remote_success_is_final env_echo engine_both "  hello " st_init
              "hello" H) as (H1 & _ & _ & _ & H5 & _).
  split; [exact H|]. split; [exact H1 | exact H5].
Defined.

(** X3. A missing client library is reported by the name of the library:
    an ImportError of the OpenAI slot becomes the error 'OpenAI library
    not available', one of the Groq slot 'Requests library not available',
    and every other exception of a slot is passed on as it is. *)
Theorem missing_library_is_named
    (env : Env) (self : AIEngine) (prompt : string) (st : State) (e : pyexn) :
  (key_truthy (openai_api_key self) = true ->
   openai_create env (openai_api_key self) prompt = Raise e ->
   result (online_attempt env self prompt) st
   = Raise (if is_import_error e
            then Exn OtherError "OpenAI library not available" else e))
  /\ (key_truthy (openai_api_key self) = false ->
      key_truthy (groq_api_key self) = true ->
      groq_post env (groq_api_key self) prompt = Raise e ->
      result (online_attempt env self prompt) st
      = Raise (if is_import_error e
               then Exn OtherError "Requests library not available" else e)).
Proof.
  unfold online_attempt, result. split.
  - intros -> He.
    unfold call_openai_api, try_except, mbind, M_bind, log_event, lift,
      mret, M_ret, raise. simpl. rewrite He. simpl.
    destruct (is_import_error e); reflexivity.
  - intros -> -> He.
    unfold call_groq_api, try_except, mbind, M_bind, log_event, lift,
      mret, M_ret, raise. simpl. rewrite He. simpl.
    destruct (is_import_error e); reflexivity.
Qed.

Lemma missing_library_is_named_witness :
  key_truthy (openai_api_key engine_remote) = true
  /\ openai_create env_bare (openai_api_key engine_remote) "hello"
     = Raise (Exn ImportError "No module named 'openai'")
  /\ result (online_attempt env_bare engine_remote "hello") st_init
     = Raise (Exn OtherError "OpenAI library not available")
  /\ result (online_attempt env_down engine_remote "hello") st_init
     = Raise (Exn OtherError "Connection error.").
Proof.
  split; [reflexivity|]. split; [reflexivity|]. split.
  - exact (proj1 (missing_library_is_named env_bare engine_remote "hello"
                    st_init (Exn ImportError "No module named 'openai'"))
             eq_refl eq_refl).
  - exact (proj1 (missing_library_is_named env_down engine_remote "hello"
                    st_init (Exn OtherError "Connection error."))
             eq_refl eq_refl).
Defined.

(** X4. When the local process ends in time the reply follows the exit
    code (the cleaned output for code 0, else the apology that quotes the
    error output), and the scratch file is gone: the files are what they
    were before the request. *)
Theorem completed_run_reply
    (env : Env) (self : AIEngine) (prompt : string) (st : State)
    (path : string) (res : completed) :
  mkstemp env (tmp_serial st) = Ok path ->
  write_error env path prompt = None ->
  files st !! path = None ->
  subprocess_run env (llama_cmd self path) (<[path := prompt]> (files st))
  = Ok res ->
  result (generate_offline_response env self prompt) st
  = Ok (if (returncode res =? 0)%Z
        then clean_output prompt (stdout res)
        else "Sorry, there was an error processing your request: "
             ++ stderr res)
  /\ files (after (generate_offline_response env self prompt) st) = files st
  /\ trace (after (generate_offline_response env self prompt) st)
     = (trace st ++ [LlamaRun (llama_cmd self path)])%list.
Proof.
  intros Hm Hw Hfresh Hr.
  unfold generate_offline_response, result, after, try_except, mbind,
    M_bind, write_prompt_file, run_llama, unlink, log_event, get_files,
    lift, mret, M_ret.
  rewrite Hm, Hw. simpl. rewrite Hr. simpl.
  rewrite lookup_insert_eq. simpl.
  destruct (returncode res =? 0)%Z; simpl;
    (split; [reflexivity|]; split; [|reflexivity]);
    now rewrite delete_insert_eq, delete_id.
Qed.

Lemma completed_run_reply_witness :
  mkstemp env_echo (tmp_serial st_init) = Ok "/tmp/tmp0.txt"
  /\ files st_init !! "/tmp/tmp0.txt" = None
  /\ result (generate_offline_response env_echo engine_local "hello") st_init
     = Ok "done"
  /\ files (after (generate_offline_response env_echo engine_local "hello")
              st_init) = files st_init.
Proof.
  destruct (completed_run_reply env_echo engine_local "hello" st_init
              "/tmp/tmp0.txt" (Completed 0 "done" "")
              eq_refl eq_refl eq_refl eq_refl) as (H1 & H2 & _).
  split; [reflexivity|]. split; [reflexivity|].
  split; [exact H1 | exact H2].
Defined.

(** X5. When the scratch file cannot be created the local process is not
    started: the reply is the apology that quotes the error and the world
    is unchanged. When only the write fails the process is not started
    either, but the file that was created stays. *)
Theorem scratch_file_failure
    (env : Env) (self : AIEngine) (prompt : string) (st : State) (e : pyexn) :
  let apology :=
    if is_timeout e then TIMEOUT_MESSAGE
    else "Sorry, I encountered an error: " ++ exn_str e in
  (mkstemp env (tmp_serial st) = Raise e ->
   generate_offline_response env self prompt st = (Ok apology, st))
  /\ (forall path,
         mkstemp env (tmp_serial st) = Ok path ->
         write_error env path prompt = Some e ->
         result (generate_offline_response env self prompt) st = Ok apology
         /\ trace (after (generate_offline_response env self prompt) st)
            = trace st
         /\ is_Some (files (after (generate_offline_response env self prompt)
                              st) !! path)).
Proof.
  intros apology. subst apology.
  unfold generate_offline_response, result, after, try_except, mbind,
    M_bind, write_prompt_file, run_llama, unlink, log_event, get_files,
    lift, mret, M_ret.
  split.
  - intros ->. simpl. destruct (is_timeout e); reflexivity.
  - intros path -> ->. simpl.
    destruct (is_timeout e); simpl;
      (split; [reflexivity|]; split; [reflexivity|]);
      rewrite lookup_insert_eq; eauto.
Qed.

Lemma scratch_file_failure_witness :
  mkstemp env_bare (tmp_serial st_init)
  = Raise (Exn OtherError "[Errno 28] No space left on device")
  /\ generate_offline_response env_bare engine_local "hello" st_init
     = (Ok "Sorry, I encountered an error: [Errno 28] No space left on device",
        st_init).
Proof.
  split; [reflexivity|].
  exact (proj1 (scratch_file_failure env_bare engine_local "hello" st_init
                  (Exn OtherError "[Errno 28] No space left on device"))
           eq_refl).
Defined.

(** X6. An offline request with the local backend configured never calls
    a remote service, whatever the local backend does and whether or not
    a remote backend is configured; the reply is always a text. *)
Theorem offline_request_stays_local
    (env : Env) (self : AIEngine) (prompt : string) (st : State) :
  offline_mode_available self = true ->
  remote_calls (after (generate_response env self prompt (PyStr "offline")) st)
  = remote_calls st
  /\ exists text,
       result (generate_response env self prompt (PyStr "offline")) st
       = Ok text.
Proof.
  intros Hoff. unfold generate_response. rewrite Hoff. simpl.
  split.
  - destruct (generate_offline_response_trace env self prompt st)
      as (evs & Ht & Hr).
    unfold remote_calls. rewrite Ht, List.filter_app, Hr, app_nil_r.
    reflexivity.
  - apply generate_offline_response_returns.
Qed.

Lemma offline_request_stays_local_witness :
  offline_mode_available engine_both = true
  /\ remote_calls
       (after (generate_response env_down engine_both "hello" (PyStr "offline"))
          st_init)
     = remote_calls st_init.
Proof.
  split; [reflexivity|].
  exact (proj1 (offline_request_stays_local env_down engine_both "hello"
                  st_init eq_refl)).
Defined.

(** ** The prompts of the five actions *)

Lemma rstrip_head t c r : Str.rstrip t = String c r -> exists t', t = String c t'.
Proof.
  destruct t as [|c' t']; simpl; [discriminate|].
  destruct (Str.rstrip t').
  - destruct (Str.is_space c'); [discriminate|]. intros [= <- _]. eauto.
  - intros [= <- _]. eauto.
Qed.

Lemma lstrip_head s c t : Str.lstrip s = String c t -> Str.is_space c = false.
Proof.
  induction s as [|c' s IH]; simpl; [discriminate|].
  destruct (Str.is_space c') eqn:E; [exact IH|].
  now intros [= <- _].
Qed.

(** A trimmed text does not begin with white space. *)
Lemma strip_head s c r : Str.strip s = String c r -> Str.is_space c = false.
Proof.
  unfold Str.strip. intros H.
  destruct (rstrip_head _ _ _ H) as (t' & Ht). exact (lstrip_head _ _ _ Ht).
Qed.

Lemma split_head sep c s :
  Ascii.eqb c sep = false ->
  exists l ls, Str.split sep (String c s) = String c l :: ls.
Proof.
  intros H. simpl. rewrite H.
  destruct (Str.split sep s) as [|l ls]; eauto.
Qed.

Lemma prefix_newline_false r c l :
  Ascii.eqb c Str.nl = false ->
  String.prefix (String Str.nl r) (String c l) = false.
Proof.
  intros H.
  change (String.prefix (String Str.nl r) (String c l))
    with (if ascii_dec Str.nl c then String.prefix r l else false).
  destruct (ascii_dec Str.nl c) as [<-|]; [|reflexivity].
  now rewrite Ascii.eqb_refl in H.
Qed.

(** With a prompt that begins with a line break the loop stops at once. *)
Lemma scan_lines_newline_prompt r out :
  scan_lines (String Str.nl r) (Str.split Str.nl (Str.strip out)) 0 0 = 0.
Proof.
  destruct (Str.strip out) as [|c s] eqn:E; [reflexivity|].
  pose proof (strip_head _ _ _ E) as Hc.
  assert (Hnl : Ascii.eqb c Str.nl = false).
  { destruct (Ascii.eqb c Str.nl) eqn:Eq; [|reflexivity].
    apply Ascii.eqb_eq in Eq. subst c. discriminate. }
  destruct (split_head Str.nl c s Hnl) as (l & ls & ->).
  cbn [scan_lines]. unfold starts_response.
  rewrite StrFacts.truthy_strip. cbn [Str.has_nonspace]. rewrite Hc.
  unfold Str.startswith. cbn [Str.take].
  now rewrite prefix_newline_false.
Qed.

Lemma clean_output_newline_prompt r out :
  clean_output (String Str.nl r) out = trimmed_or_apology out.
Proof.
  unfold clean_output, trimmed_or_apology.
  rewrite scan_lines_newline_prompt, drop_0.
  now rewrite StrFacts.text_split, StrFacts.strip_idem.
Qed.

(** X7. For the prompt of each of the five actions no line of the output
    can start with the first 50 characters of the prompt, because the
    prompt begins with a line break: the local reply is the trimmed output
    of the process, whole, or the apology when that is empty. *)
Theorem action_prompts_keep_whole_output
    (pc : persona_config) (code target_language error_message : pyval)
    (out : string) :
  clean_output (explain_prompt pc code) out = trimmed_or_apology out
  /\ clean_output (translate_prompt pc code target_language) out
     = trimmed_or_apology out
  /\ clean_output (optimize_prompt pc code) out = trimmed_or_apology out
  /\ clean_output (chat_prompt pc code) out = trimmed_or_apology out
  /\ clean_output (fix_error_prompt pc code error_message) out
     = trimmed_or_apology out.
Proof.
  split; [|split; [|split; [|split]]];
    apply (clean_output_newline_prompt _ out).
Qed.

Lemma prefix_app needle a b :
  String.prefix needle a = true -> String.prefix needle (a ++ b) = true.
Proof.
  revert a. induction needle as [|c n IH]; intros a H;
    [destruct (a ++ b); reflexivity|].
  destruct a as [|c' a]; [discriminate|].
  change (String.prefix (String c n) (String c' a))
    with (if ascii_dec c c' then String.prefix n a else false) in H.
  change (String.prefix (String c n) (String c' a ++ b))
    with (if ascii_dec c c' then String.prefix n (a ++ b) else false).
  destruct (ascii_dec c c'); [now apply IH | discriminate].
Qed.

Lemma contains_prefix needle hay :
  String.prefix needle hay = true -> Str.contains needle hay = true.
Proof. intros H. destruct hay; cbn [Str.contains]; now rewrite H. Qed.

Lemma contains_app_l needle a b :
  Str.contains needle a = true -> Str.contains needle (a ++ b) = true.
Proof.
  induction a as [|c a IH]; intros H.
  - apply contains_prefix. apply (prefix_app needle "" b).
    cbn [Str.contains] in H. now rewrite orb_false_r in H.
  - change (Str.contains needle (String c a))
      with (String.prefix needle (String c a) || Str.contains needle a) in H.
    change (Str.contains needle (String c a ++ b))
      with (String.prefix needle (String c a ++ b)
            || Str.contains needle (a ++ b)).
    apply orb_true_iff in H as [H|H].
    + now rewrite (prefix_app _ _ b H).
    + rewrite (IH H). apply orb_true_r.
Qed.

Lemma lower_app a b : Str.lower (a ++ b) = Str.lower a ++ Str.lower b.
Proof. induction a as [|c a IH]; simpl; [reflexivity | now rewrite IH]. Qed.

Lemma lower_join sep l :
  Str.lower (Str.join sep l) = Str.join (Str.lower sep) (map Str.lower l).
Proof.
  induction l as [|x l IH]; [reflexivity|].
  destruct l as [|y l]; [reflexivity|].
  change (Str.join sep (x :: y :: l)) with (x ++ sep ++ Str.join sep (y :: l)).
  now rewrite !lower_app, IH.
Qed.

(** A word found in one of the joined pieces is found in the whole. *)
Lemma contains_join needle sep x l :
  In x l -> Str.contains needle x = true ->
  Str.contains needle (Str.join sep l) = true.
Proof.
  intros Hin Hx. induction l as [|y l IH]; [destruct Hin|].
  destruct l as [|z l].
  - destruct Hin as [->|[]]. exact Hx.
  - change (Str.join sep (y :: z :: l)) with (y ++ sep ++ Str.join sep (z :: l)).
    destruct Hin as [->|Hin].
    + now apply contains_app_l.
    + apply StrFacts.contains_app_r, StrFacts.contains_app_r. now apply IH.
Qed.

Lemma fallback_explain_line line lines :
  In line lines ->
  Str.contains "explain" (Str.lower line) = true ->
  generate_fallback_response (Str.text lines) = FALLBACK_EXPLAIN.
Proof.
  intros Hin Hc. unfold generate_fallback_response, Str.text.
  rewrite lower_join.
  rewrite (contains_join "explain" _ (Str.lower line)); [reflexivity| |exact Hc].
  apply in_map_iff. now exists line.
Qed.

(** The prompts of four actions carry the word in their own sentence, and
    so does the chat prompt through the teacher profile. *)
Lemma action_prompts_say_explain
    (pc : persona_config) (code target_language error_message : pyval) :
  generate_fallback_response (explain_prompt pc code) = FALLBACK_EXPLAIN
  /\ generate_fallback_response (translate_prompt pc code target_language)
     = FALLBACK_EXPLAIN
  /\ generate_fallback_response (optimize_prompt pc code) = FALLBACK_EXPLAIN
  /\ generate_fallback_response (fix_error_prompt pc code error_message)
     = FALLBACK_EXPLAIN
  /\ generate_fallback_response (chat_prompt teacher_config code)
     = FALLBACK_EXPLAIN.
Proof.
  split; [|split; [|split; [|split]]].
  - apply (fallback_explain_line "Please explain the following code:");
      [simpl; tauto | reflexivity].
  - apply (fallback_explain_line
             "Provide the translated code and explain any important differences or considerations.");
      [simpl; tauto | reflexivity].
  - apply (fallback_explain_line
             "Provide the optimized version and explain what improvements were made.");
      [simpl; tauto | reflexivity].
  - apply (fallback_explain_line
             "Please analyze the error, explain what's wrong, and provide a corrected version of the code.");
      [simpl; tauto | reflexivity].
  - apply (fallback_explain_line (system_prompt teacher_config));
      [simpl; tauto | reflexivity].
Qed.

(** X8. Without any backend the requests explain, translate, optimize and
    fix_error all get the canned text of explain, whatever the code, the
    persona and the options: the prompt of each of these actions has the
    word 'explain' in its own instruction, and that keyword is looked for
    first. The tips for translation and for optimization are never the
    reply to a translate or an optimize request. *)
Theorem no_backend_reply_is_explain_text
    (env : Env) (ai_engine : AIEngine) (st : State)
    (content mode options : pyval) (p : string) (d : list (string * pyval)) :
  online_mode_available ai_engine = false ->
  offline_mode_available ai_engine = false ->
  let request action opts :=
    process_request env ai_engine (PyStr action) content (PyStr p) mode opts st in
  let reply action :=
    (Ok (success_envelope env FALLBACK_EXPLAIN (PyStr action) (PyStr p) mode),
     st) in
  request "explain" options = reply "explain"
  /\ request "translate" (PyDict d) = reply "translate"
  /\ request "optimize" options = reply "optimize"
  /\ request "fix_error" (PyDict d) = reply "fix_error".
Proof.
  intros H1 H2 request reply. subst request reply.
  unfold process_request, explain_code, translate_code, optimize_code,
    fix_error, try_except, mbind, M_bind, lift, dict_get, value_get.
  cbn [Py.eq_str String.eqb Ascii.eqb Bool.eqb].
  rewrite !generate_response_no_backend by assumption.
  cbn [mret M_ret].
  split; [|split; [|split]].
  - now rewrite (proj1 (action_prompts_say_explain _ content PyNone PyNone)).
  - now rewrite (proj1 (proj2 (action_prompts_say_explain _ content _ PyNone))).
  - now rewrite (proj1 (proj2 (proj2
                  (action_prompts_say_explain _ content PyNone PyNone)))).
  - now rewrite (proj1 (proj2 (proj2 (proj2
                  (action_prompts_say_explain _ content PyNone _))))).
Qed.

Lemma no_backend_reply_is_explain_text_witness :
  online_mode_available engine_none = false
  /\ offline_mode_available engine_none = false
  /\ process_request env_down engine_none (PyStr "optimize") (PyStr "x = 1")
       (PyStr "hacker") (PyStr "online") (PyDict []) st_init
     = (Ok (success_envelope env_down FALLBACK_EXPLAIN (PyStr "optimize")
              (PyStr "hacker") (PyStr "online")), st_init).
Proof.
  split; [reflexivity|]. split; [reflexivity|].
  exact (proj1 (proj2 (proj2
           (no_backend_reply_is_explain_text env_down engine_none st_init
              (PyStr "x = 1") (PyStr "online") (PyDict []) "hacker" []
              eq_refl eq_refl)))).
Defined.

(** ** Messages that are not a request *)

(** The state after one more message went out. *)
Lemma ws_send_ok env msg st :
  send_error env (sends st) = None ->
  ws_send env msg st
  = (Ok tt, MkState (files st) (tmp_serial st) (trace st)
                    (outbox st ++ [msg])%list (S (sends st))).
Proof. intros H. unfold ws_send. now rewrite H. Qed.

(** X9. A message that cannot be decoded is answered with one error
    envelope, 'Invalid JSON format' for a JSON error and the text of the
    exception otherwise; no backend is called and no file is written. *)
Theorem undecodable_message_reply
    (env : Env) (ai_engine : AIEngine) (message : string) (st : State)
    (e : pyexn) :
  json_loads env message = Raise e ->
  send_error env (sends st) = None ->
  handle_message env ai_engine message st
  = (Ok tt,
     MkState (files st) (tmp_serial st) (trace st)
       (outbox st
        ++ [error_response env
              (if is_json_error e then "Invalid JSON format" else exn_str e)])%list
       (S (sends st))).
Proof.
  intros Hj Hs.
  unfold handle_message, try_except, mbind, M_bind, lift. rewrite Hj.
  destruct (is_json_error e); now rewrite ws_send_ok.
Qed.

Lemma undecodable_message_reply_witness :
  json_loads env_down "{oops"
  = Raise (Exn JSONDecodeError "Expecting value")
  /\ send_error env_down (sends st_init) = None
  /\ outbox (after (handle_message env_down engine_both "{oops") st_init)
     = [error_response env_down "Invalid JSON format"].
Proof.
  split; [reflexivity|]. split; [reflexivity|].
  unfold after.
  now rewrite (undecodable_message_reply env_down engine_both "{oops" st_init
                 (Exn JSONDecodeError "Expecting value") eq_refl eq_refl).
Defined.

(** X10. A message that decodes to something other than an object (a
    list, a string, a number, true, false, null) is answered with one
    error envelope whose text says that the value has no 'get'; no
    backend is called and no file is written. *)
Theorem non_object_message_reply
    (env : Env) (ai_engine : AIEngine) (message : string) (st : State)
    (data : pyval) :
  json_loads env message = Ok data ->
  (forall d, data <> PyDict d) ->
  send_error env (sends st) = None ->
  handle_message env ai_engine message st
  = (Ok tt,
     MkState (files st) (tmp_serial st) (trace st)
       (outbox st
        ++ [error_response env
              ("'" ++ Py.type_name data ++ "' object has no attribute 'get'")])%list
       (S (sends st))).
Proof.
  intros Hj Hd Hs.
  unfold handle_message, try_except, mbind, M_bind, lift. rewrite Hj.
  destruct data as [|b|z|s|l|d]; simpl;
    try (now rewrite ws_send_ok).
  now destruct (Hd d).
Qed.

Lemma non_object_message_reply_witness :
  json_loads env_bare "[]" = Ok (PyList [])
  /\ (forall d, PyList [] <> PyDict d)
  /\ send_error env_bare (sends st_init) = None
  /\ outbox (after (handle_message env_bare engine_both "[]") st_init)
     = [error_response env_bare "'list' object has no attribute 'get'"].
Proof.
  assert (Hd : forall d, PyList [] <> PyDict d) by (intros d; discriminate).
  split; [reflexivity|]. split; [exact Hd|]. split; [reflexivity|].
  unfold after.
  now rewrite (non_object_message_reply env_bare engine_both "[]" st_init
                 (PyList []) eq_refl Hd eq_refl).
Defined.

(** X11. A request object without an 'action' key is not an error: it is
    answered with the success envelope of the unknown action None, its
    text 'Unknown action: None. Available actions: ...', with the persona
    and the mode of the request or their defaults 'teacher' and 'online';
    no backend is called and no file is written. *)
Theorem missing_action_reply
    (env : Env) (ai_engine : AIEngine) (message : string) (st : State)
    (d : list (string * pyval)) :
  json_loads env message = Ok (PyDict d) ->
  Py.assoc "action" d = None ->
  send_error env (sends st) = None ->
  handle_message env ai_engine message st
  = (Ok tt,
     MkState (files st) (tmp_serial st) (trace st)
       (outbox st
        ++ [success_envelope env
              "Unknown action: None. Available actions: explain, translate, optimize, chat, fix_error"
              PyNone
              (option_or d "persona" (PyStr "teacher"))
              (option_or d "mode" (PyStr "online"))])%list
       (S (sends st))).
Proof.
  intros Hj Ha Hs.
  unfold handle_message, try_except, mbind, M_bind, lift, value_get.
  rewrite Hj, Ha.
  unfold process_request, try_except, mbind, M_bind, mret, M_ret.
  cbn [default Py.eq_str].
  now rewrite ws_send_ok.
Qed.

Lemma missing_action_reply_witness :
  json_loads env_echo "{}" = Ok (PyDict [])
  /\ Py.assoc "action" [] = None
  /\ send_error env_echo (sends st_init) = None
  /\ outbox (after (handle_message env_echo engine_both "{}") st_init)
     = [success_envelope env_echo
          "Unknown action: None. Available actions: explain, translate, optimize, chat, fix_error"
          PyNone (PyStr "teacher") (PyStr "online")].
Proof.
  split; [reflexivity|]. split; [reflexivity|]. split; [reflexivity|].
  unfold after.
  now rewrite (missing_action_reply env_echo engine_both "{}" st_init []
                 eq_refl eq_refl eq_refl).
Defined.

(** ** Options and personas of a request *)

(** X12. A translate request without 'targetLanguage' is the request for
    'python', and a fix_error request without 'error' is the request with
    the empty error text. *)
Theorem missing_option_defaults
    (env : Env) (ai_engine : AIEngine)
    (content persona mode : pyval) (d : list (string * pyval)) :
  (Py.assoc "targetLanguage" d = None ->
   process_request env ai_engine (PyStr "translate") content persona mode
     (PyDict d)
   = process_request env ai_engine (PyStr "translate") content persona mode
       (PyDict (("targetLanguage", PyStr "python") :: d)))
  /\ (Py.assoc "error" d = None ->
      process_request env ai_engine (PyStr "fix_error") content persona mode
        (PyDict d)
      = process_request env ai_engine (PyStr "fix_error") content persona mode
          (PyDict (("error", PyStr "") :: d))).
Proof.
  unfold process_request, value_get.
  split; intros H; cbn [Py.eq_str String.eqb Ascii.eqb Bool.eqb Py.assoc];
    now rewrite H.
Qed.

Lemma missing_option_defaults_witness :
  Py.assoc "targetLanguage" [("error", PyStr "boom")] = None
  /\ process_request env_echo engine_remote (PyStr "translate") (PyStr "x = 1")
       (PyStr "teacher") (PyStr "online") (PyDict [("error", PyStr "boom")])
     = process_request env_echo engine_remote (PyStr "translate")
         (PyStr "x = 1") (PyStr "teacher") (PyStr "online")
         (PyDict [("targetLanguage", PyStr "python"); ("error", PyStr "boom")]).
Proof.
  split; [reflexivity|].
  exact (proj1 (missing_option_defaults env_echo engine_remote (PyStr "x = 1")
                  (PyStr "teacher") (PyStr "online")
                  [("error", PyStr "boom")]) eq_refl).
Defined.

(** X13. A persona that is a list or an object makes each of the five
    actions fail before any backend is asked: the reply is the failure
    envelope that carries the text of a TypeError, and the world is
    unchanged. *)
Theorem unhashable_persona_fails
    (env : Env) (ai_engine : AIEngine) (st : State) (action : string)
    (content persona mode : pyval) (d : list (string * pyval)) :
  In action ["explain"; "translate"; "optimize"; "chat"; "fix_error"] ->
  Py.hashable persona = false ->
  exists e,
    exn_kind e = TypeError
    /\ process_request env ai_engine (PyStr action) content persona mode
         (PyDict d) st
       = (Ok (failure_envelope env e (PyStr action)), st)
    /\ failure_envelope env e (PyStr action) !! "success" = Some (PyBool false).
Proof.
  intros Ha Hp.
  exists (Exn TypeError ("unhashable type: '" ++ Py.type_name persona ++ "'")).
  split; [reflexivity|]. split; [|reflexivity].
  destruct persona as [|b|z|s|l|d']; try discriminate;
    simpl in Ha;
    destruct Ha as [<-|[<-|[<-|[<-|[<-|[]]]]]]; reflexivity.
Qed.

Lemma unhashable_persona_fails_witness :
  In "chat" ["explain"; "translate"; "optimize"; "chat"; "fix_error"]
  /\ Py.hashable (PyList [PyStr "teacher"]) = false
  /\ exists e,
       exn_kind e = TypeError
       /\ process_request env_echo engine_both (PyStr "chat") (PyStr "hi")
            (PyList [PyStr "teacher"]) (PyStr "online") (PyDict []) st_init
          = (Ok (failure_envelope env_echo e (PyStr "chat")), st_init).
Proof.
  assert (Hin : In "chat"
                  ["explain"; "translate"; "optimize"; "chat"; "fix_error"])
    by (simpl; tauto).
  split; [exact Hin|]. split; [reflexivity|].
  destruct (unhashable_persona_fails env_echo engine_both st_init "chat"
              (PyStr "hi") (PyList [PyStr "teacher"]) (PyStr "online") []
              Hin eq_refl) as (e & He & Hr & _).
  exists e. split; [exact He | exact Hr].
Defined.

(** ** Start-up: initialize and setup_offline_mode *)

Section StartUp.

Variable host : Host.

Lemma check_executable_in_path_true executable :
  check_executable_in_path host executable = Ok true ->
  run_version host executable = ProbeExit 0.
Proof.
  unfold check_executable_in_path.
  destruct (run_version host executable) as [code| | |e]; try discriminate.
  intros [= H]. apply Z.eqb_eq in H. now subst.
Qed.

(** The search starts a process only for a candidate that does not exist
    as a path; what it finds is a candidate that exists or that answered
    [--version] with exit code 0, and when it finds nothing it has tried
    them all. *)
Lemma search_executable_spec paths current found started :
  search_executable host paths current = (Ok found, started) ->
  Forall (fun p => path_exists host p = false /\ In p paths) started
  /\ ((found = current /\ started = paths)
      \/ exists p,
           found = Some p /\ In p paths
           /\ (path_exists host p = true
               \/ run_version host p = ProbeExit 0)).
Proof.
  revert found started.
  induction paths as [|path rest IH]; intros found started; simpl.
  - intros [= <- <-]. split; [constructor | now left].
  - destruct (path_exists host path) eqn:Ex.
    + intros [= <- <-]. split; [constructor|].
      right. exists path. auto.
    + destruct (check_executable_in_path host path) as [[|]|e] eqn:Ck.
      * intros [= <- <-]. split; [repeat constructor; auto|].
        right. exists path. split; [reflexivity|]. split; [now left|].
        right. now apply check_executable_in_path_true.
      * destruct (search_executable host rest current) as [r sp] eqn:Es.
        intros [= -> <-]. destruct (IH _ _ eq_refl) as [Hall Hfound].
        split.
        -- constructor; [auto|].
           eapply Forall_impl; [exact Hall|]. intros p [? ?]. auto.
        -- destruct Hfound as [[-> ->] | (p & -> & Hin & Hp)];
             [now left|].
           right. exists p. auto.
      * intros [= ].
Qed.

Lemma search_executable_length paths current r started :
  search_executable host paths current = (r, started) ->
  length started <= length paths.
Proof.
  revert r started. induction paths as [|path rest IH]; intros r started; simpl.
  - intros [= <- <-]. simpl. lia.
  - destruct (path_exists host path); [intros [= <- <-]; simpl; lia|].
    destruct (check_executable_in_path host path) as [[|]|e];
      try (intros [= <- <-]; simpl; lia).
    destruct (search_executable host rest current) as [r' sp] eqn:Es.
    intros [= <- <-]. simpl. specialize (IH _ _ eq_refl). lia.
Qed.

(** The first file of the listing with a model extension is the model. *)
Lemma pick_model_first dir before file rest current :
  Forall (fun f => is_model_file f = false) before ->
  is_model_file file = true ->
  pick_model host dir (before ++ file :: rest) current
  = Some (path_join host dir file).
Proof.
  intros Hb Hf. induction Hb as [|f before Hn Hb IH]; simpl.
  - now rewrite Hf.
  - now rewrite Hn.
Qed.

Lemma pick_model_none dir files current :
  Forall (fun f => is_model_file f = false) files ->
  pick_model host dir files current = current.
Proof.
  intros H. induction H as [|f files Hn H IH]; simpl; [reflexivity|].
  now rewrite Hn.
Qed.

(** What [setup_offline_mode] leaves in the engine when it returns. *)
Lemma setup_offline_mode_ok self self' started :
  setup_offline_mode host self = (Ok self', started) ->
  exists model_path,
    (if path_exists host (models_dir host)
     then match listdir host (models_dir host) with
          | Ok files =>
              Ok (pick_model host (models_dir host) files
                    (llama_model_path self))
          | Raise e => Raise e
          end
     else Ok (llama_model_path self)) = Ok model_path
    /\ search_executable host (possible_paths host) (llama_executable self)
       = (Ok (llama_executable self'), started)
    /\ llama_model_path self' = model_path
    /\ online_mode_available self' = online_mode_available self
    /\ openai_api_key self' = openai_api_key self
    /\ groq_api_key self' = groq_api_key self
    /\ offline_mode_available self'
       = (if key_truthy (llama_model_path self')
             && key_truthy (llama_executable self')
          then true else offline_mode_available self).
Proof.
  unfold setup_offline_mode.
  destruct (if path_exists host (models_dir host) then _ else _)
    as [model_path|e]; [|discriminate].
  destruct (search_executable host (possible_paths host)
              (llama_executable self)) as [[exe|e] sp]; [|discriminate].
  intros [= <- <-]. exists model_path. simpl. repeat split.
Qed.

Lemma initialize_ok self self' ok started :
  initialize host self = (Ok (self', ok), started) ->
  let keys := key_truthy (getenv host "OPENAI_API_KEY")
              || key_truthy (getenv host "GROQ_API_KEY") in
  openai_api_key self' = getenv host "OPENAI_API_KEY"
  /\ groq_api_key self' = getenv host "GROQ_API_KEY"
  /\ online_mode_available self'
     = (if keys then true else online_mode_available self)
  /\ offline_mode_available self'
     = (if key_truthy (llama_model_path self')
           && key_truthy (llama_executable self')
        then true else offline_mode_available self)
  /\ ok = keys || offline_mode_available self'.
Proof.
  unfold initialize.
  match goal with
  | |- context [setup_offline_mode host ?s1] =>
      destruct (setup_offline_mode host s1) as [[self2|e] sp] eqn:Es;
      [|discriminate]
  end.
  intros [= <- <- <-].
  destruct (setup_offline_mode_ok _ _ _ Es)
    as (mp & _ & _ & _ & Hon & Ho & Hg & Hoff).
  simpl in *. repeat split; assumption.
Qed.

End StartUp.

(** X14. On a new engine [initialize] makes the remote mode available
    exactly when one of the two keys is set to a non-empty text (an empty
    key counts as unset), the local mode exactly when both a model file
    and an executable were found, and it returns whether one of the two
    modes is available. *)
Theorem initialize_new_engine
    (host : Host) (self : AIEngine) (ok : bool) (started : list string) :
  initialize host AIEngine_init = (Ok (self, ok), started) ->
  openai_api_key self = getenv host "OPENAI_API_KEY"
  /\ groq_api_key self = getenv host "GROQ_API_KEY"
  /\ online_mode_available self
     = key_truthy (getenv host "OPENAI_API_KEY")
       || key_truthy (getenv host "GROQ_API_KEY")
  /\ offline_mode_available self
     = key_truthy (llama_model_path self) && key_truthy (llama_executable self)
  /\ ok = online_mode_available self || offline_mode_available self.
Proof.
  intros H. destruct (initialize_ok host _ _ _ _ H)
    as (Ho & Hg & Hon & Hoff & Hok).
  simpl in Hon, Hoff.
  split; [exact Ho|]. split; [exact Hg|].
  assert (Hon' : online_mode_available self
                 = key_truthy (getenv host "OPENAI_API_KEY")
                   || key_truthy (getenv host "GROQ_API_KEY")).
  { rewrite Hon. now destruct (_ || _). }
  assert (Hoff' : offline_mode_available self
                  = key_truthy (llama_model_path self)
                    && key_truthy (llama_executable self)).
  { rewrite Hoff at 1. now destruct (_ && _). }
  split; [exact Hon'|]. split; [exact Hoff'|].
  now rewrite Hok, <- Hon'.
Qed.

Lemma initialize_new_engine_witness :
  exists self,
    initialize host_sample AIEngine_init
    = (Ok (self, true),
       ["/app/backend/llama"; "/app/backend/llama.cpp/llama"; "llama"])
    /\ openai_api_key self = Some ""
    /\ online_mode_available self = true
    /\ offline_mode_available self = true.
Proof.
  eexists. split; [reflexivity|].
  destruct (initialize_new_engine host_sample _ true _ eq_refl)
    as (Ho & _ & Hon & Hoff & _).
  split; [exact Ho|]. split; [exact Hon | exact Hoff].
Defined.

(** X15. [initialize] never turns a mode off: run again on an engine, a
    mode that was available stays available even when the keys, the model
    or the executable are gone, while the value returned only counts the
    keys found now and the local mode. *)
Theorem initialize_keeps_modes
    (host : Host) (self self' : AIEngine) (ok : bool) (started : list string) :
  initialize host self = (Ok (self', ok), started) ->
  (online_mode_available self = true -> online_mode_available self' = true)
  /\ (offline_mode_available self = true ->
      offline_mode_available self' = true)
  /\ ok = key_truthy (getenv host "OPENAI_API_KEY")
          || key_truthy (getenv host "GROQ_API_KEY")
          || offline_mode_available self'.
Proof.
  intros H. destruct (initialize_ok host _ _ _ _ H)
    as (_ & _ & Hon & Hoff & Hok).
  simpl in Hon. split; [|split; [|exact Hok]].
  - intros Hs. rewrite Hon, Hs. now destruct (_ || _).
  - intros Hs. rewrite Hoff, Hs. now destruct (_ && _).
Qed.

Lemma initialize_keeps_modes_witness :
  exists self' started,
    initialize host_bare engine_remote = (Ok (self', false), started)
    /\ online_mode_available engine_remote = true
    /\ online_mode_available self' = true
    /\ openai_api_key self' = None
    /\ groq_api_key self' = None.
Proof.
  eexists. eexists. split; [reflexivity|].
  destruct (initialize_keeps_modes host_bare engine_remote _ false _ eq_refl)
    as (Hon & _ & _).
  split; [reflexivity|]. split; [apply Hon; reflexivity|].
  split; reflexivity.
Defined.

(** X16. The model is the first entry of the directory listing, in the
    order of the listing, whose name ends in .ggml, .bin or .gguf; when no
    entry has such a name, or the models directory does not exist, the
    model path keeps the value it had. *)
Theorem model_file_choice
    (host : Host) (self self' : AIEngine) (started : list string) :
  setup_offline_mode host self = (Ok self', started) ->
  (forall before file rest,
      path_exists host (models_dir host) = true ->
      listdir host (models_dir host) = Ok (before ++ file :: rest)%list ->
      Forall (fun f => is_model_file f = false) before ->
      is_model_file file = true ->
      llama_model_path self' = Some (path_join host (models_dir host) file))
  /\ (forall files,
         path_exists host (models_dir host) = true ->
         listdir host (models_dir host) = Ok files ->
         Forall (fun f => is_model_file f = false) files ->
         llama_model_path self' = llama_model_path self)
  /\ (path_exists host (models_dir host) = false ->
      llama_model_path self' = llama_model_path self).
Proof.
  intros H.
  destruct (setup_offline_mode_ok host _ _ _ H) as (mp & Hm & _ & Hmp & _).
  rewrite Hmp. split; [|split].
  - intros before file rest Hex Hl Hb Hf. rewrite Hex, Hl in Hm.
    rewrite pick_model_first in Hm by assumption. congruence.
  - intros files Hex Hl Hn. rewrite Hex, Hl in Hm.
    rewrite pick_model_none in Hm by assumption. congruence.
  - intros Hex. rewrite Hex in Hm. congruence.
Qed.

Lemma model_file_choice_witness :
  exists self' started,
    setup_offline_mode host_sample AIEngine_init = (Ok self', started)
    /\ listdir host_sample (models_dir host_sample)
       = Ok (["README.md"] ++ "tiny.gguf" :: ["big.bin"])%list
    /\ is_model_file "README.md" = false
    /\ is_model_file "tiny.gguf" = true
    /\ llama_model_path self' = Some "/app/backend/models/tiny.gguf".
Proof.
  eexists. eexists. split; [reflexivity|].
  split; [reflexivity|]. split; [reflexivity|]. split; [reflexivity|].
  refine (proj1 (model_file_choice host_sample AIEngine_init _ _ eq_refl)
            ["README.md"] "tiny.gguf" ["big.bin"] eq_refl eq_refl _ eq_refl).
  repeat constructor.
Defined.

(** X17. The executable is looked for in three places in order (beside
    the module, in its llama.cpp directory, on the search path); the
    '--version' process is started only for a place that does not exist
    as a path, so at most three times; the executable kept is a place
    that exists or whose process ended with code 0; when none is found
    all three were tried and the executable keeps the value it had. *)
Theorem executable_search_order
    (host : Host) (self self' : AIEngine) (started : list string) :
  setup_offline_mode host self = (Ok self', started) ->
  length started <= 3
  /\ Forall (fun p => path_exists host p = false
                      /\ In p (possible_paths host)) started
  /\ ((llama_executable self' = llama_executable self
       /\ started = possible_paths host)
      \/ exists p,
           llama_executable self' = Some p
           /\ In p (possible_paths host)
           /\ (path_exists host p = true
               \/ run_version host p = ProbeExit 0))
  /\ (path_exists host
        (path_join host (module_dir host) (executable_name host)) = true ->
      started = []
      /\ llama_executable self'
         = Some (path_join host (module_dir host) (executable_name host))).
Proof.
  intros H.
  destruct (setup_offline_mode_ok host _ _ _ H) as (mp & _ & Hs & _).
  pose proof (search_executable_length host _ _ _ _ Hs) as Hlen.
  destruct (search_executable_spec host _ _ _ _ Hs) as [Hall Hfound].
  split; [exact Hlen|]. split; [exact Hall|]. split; [exact Hfound|].
  intros Hex. unfold possible_paths in Hs. cbn [search_executable] in Hs.
  rewrite Hex in Hs. now inversion Hs.
Qed.

Lemma executable_search_order_witness :
  exists self',
    setup_offline_mode host_sample AIEngine_init
    = (Ok self',
       ["/app/backend/llama"; "/app/backend/llama.cpp/llama"; "llama"])
    /\ llama_executable self' = Some "llama"
    /\ Forall (fun p => path_exists host_sample p = false
                        /\ In p (possible_paths host_sample))
         ["/app/backend/llama"; "/app/backend/llama.cpp/llama"; "llama"].
Proof.
  eexists. split; [reflexivity|]. split; [reflexivity|].
  exact (proj1 (proj2 (executable_search_order host_sample AIEngine_init
                         _ _ eq_refl))).
Defined.

(** X18. After [initialize] on a new engine, an engine with the remote
    mode available always has a slot to call: its remote attempt calls
    OpenAI when OPENAI_API_KEY is set and not empty, and Groq otherwise,
    once; the error 'No online API keys available' cannot occur. *)
Theorem initialized_engine_calls_a_slot
    (host : Host) (self : AIEngine) (ok : bool) (started : list string)
    (env : Env) (prompt : string) (st : State) :
  initialize host AIEngine_init = (Ok (self, ok), started) ->
  online_mode_available self = true ->
  trace (after (online_attempt env self prompt) st)
  = (trace st
     ++ [if key_truthy (getenv host "OPENAI_API_KEY")
         then OpenAICall (getenv host "OPENAI_API_KEY") prompt
         else GroqCall (getenv host "GROQ_API_KEY") prompt])%list
  /\ (key_truthy (getenv host "OPENAI_API_KEY") = false ->
      key_truthy (getenv host "GROQ_API_KEY") = true).
Proof.
  intros H Hon.
  destruct (initialize_ok host _ _ _ _ H) as (Ho & Hg & Hav & _).
  simpl in Hav. rewrite Hon in Hav.
  rewrite online_attempt_trace. unfold attempt_events. rewrite Ho, Hg.
  destruct (key_truthy (getenv host "OPENAI_API_KEY")); simpl in *.
  - split; [reflexivity | discriminate].
  - destruct (key_truthy (getenv host "GROQ_API_KEY"));
      [split; reflexivity | discriminate].
Qed.

Lemma initialized_engine_calls_a_slot_witness :
  exists self,
    initialize host_sample AIEngine_init
    = (Ok (self, true),
       ["/app/backend/llama"; "/app/backend/llama.cpp/llama"; "llama"])
    /\ online_mode_available self = true
    /\ trace (after (online_attempt env_echo self "hello") st_init)
       = [GroqCall (Some "gsk-1") "hello"].
Proof.
  eexists. split; [reflexivity|]. split; [reflexivity|].
  exact (proj1 (initialized_engine_calls_a_slot host_sample _ true _
                  env_echo "hello" st_init eq_refl eq_refl)).
Defined.

(** X19. After [initialize] on a new engine, an engine with the local
    mode available has both an executable and a model, so that no
    argument of the llama command is missing. *)
Theorem initialized_engine_command_complete
    (host : Host) (self : AIEngine) (ok : bool) (started : list string)
    (prompt_file : string) :
  initialize host AIEngine_init = (Ok (self, ok), started) ->
  offline_mode_available self = true ->
  exists executable model,
    llama_executable self = Some executable
    /\ llama_model_path self = Some model
    /\ executable <> "" /\ model <> ""
    /\ ~ In None (llama_cmd self prompt_file).
Proof.
  intros H Hoff.
  destruct (initialize_ok host _ _ _ _ H) as (_ & _ & _ & Hav & _).
  simpl in Hav. rewrite Hoff in Hav.
  unfold llama_cmd.
  destruct (llama_model_path self) as [[|c m]|];
    destruct (llama_executable self) as [[|c' x]|]; try discriminate.
  exists (String c' x), (String c m).
  split; [reflexivity|]. split; [reflexivity|].
  split; [discriminate|]. split; [discriminate|].
  simpl. intros Hin.
  repeat destruct Hin as [Hin|Hin]; try discriminate. exact Hin.
Qed.

Lemma initialized_engine_command_complete_witness :
  exists self,
    initialize host_sample AIEngine_init
    = (Ok (self, true),
       ["/app/backend/llama"; "/app/backend/llama.cpp/llama"; "llama"])
    /\ offline_mode_available self = true
    /\ llama_executable self = Some "llama"
    /\ ~ In None (llama_cmd self "/tmp/tmp0.txt").
Proof.
  eexists. split; [reflexivity|]. split; [reflexivity|].
  split; [reflexivity|].
  destruct (initialized_engine_command_complete host_sample _ true _
              "/tmp/tmp0.txt" eq_refl eq_refl)
    as (x & m & _ & _ & _ & _ & Hcmd).
  exact Hcmd.
Defined.

(** ** One client connection *)

Section ClientSession.

Variable env : Env.
Variable ai_engine : AIEngine.

(** Every message sent while the requests of a connection are served is a
    well-formed envelope. *)
Lemma serve_messages_sent messages st :
  exists sent,
    outbox (after (serve_messages env ai_engine messages) st)
    = (outbox st ++ sent)%list
    /\ Forall envelope_ok sent.
Proof.
  revert st. induction messages as [|message rest IH]; intros st.
  - exists []. simpl. rewrite app_nil_r. split; [reflexivity | constructor].
  - destruct (handle_message_sent env ai_engine message st)
      as (sent1 & H1 & F1 & _).
    unfold after in *. cbn [serve_messages]. unfold mbind, M_bind.
    destruct (handle_message env ai_engine message st) as [[[]|e] st1];
      simpl in *.
    + destruct (IH st1) as (sent2 & H2 & F2).
      exists (sent1 ++ sent2)%list.
      rewrite H2, H1, app_assoc. split; [reflexivity | now apply Forall_app].
    + exists sent1. auto.
Qed.

End ClientSession.

(** X20. When the welcome message goes out, a connection always ends
    with the client removed from the set of connected clients, the other
    clients untouched, and without an exception, whatever its messages
    do; the welcome message is the first thing sent and every message
    after it is a well-formed response envelope. *)
Theorem client_session_ends_unregistered
    (env : Env) (ai_engine : AIEngine) (websocket : nat)
    (messages : list string) (connected_clients : gset nat) (st : State) :
  send_error env (sends st) = None ->
  exists sent st',
    handle_client env ai_engine websocket messages connected_clients st
    = (Ok tt, connected_clients ∖ {[websocket]}, st')
    /\ (websocket ∉ connected_clients ∖ {[websocket]})
    /\ outbox st' = (outbox st ++ welcome_msg env :: sent)%list
    /\ Forall envelope_ok sent.
Proof.
  intros Hs. unfold handle_client, register_client.
  rewrite (ws_send_ok env _ st Hs).
  match goal with
  | |- context [after (serve_messages env ai_engine messages) ?s1] =>
      destruct (serve_messages_sent env ai_engine messages s1)
        as (sent & Ho & Hf);
      exists sent, (after (serve_messages env ai_engine messages) s1)
  end.
  split; [|split; [|split]].
  - f_equal. f_equal. unfold unregister_client.
    apply set_eq. intros x.
    rewrite !elem_of_difference, elem_of_union, elem_of_singleton. tauto.
  - rewrite elem_of_difference, elem_of_singleton. tauto.
  - rewrite Ho. simpl. now rewrite <- app_assoc.
  - exact Hf.
Qed.

Lemma client_session_ends_unregistered_witness :
  send_error env_echo (sends st_init) = None
  /\ exists sent st',
       handle_client env_echo engine_none 7 ["{}"; "{}"] {[3; 7]} st_init
       = (Ok tt, {[3; 7]} ∖ {[7]}, st')
       /\ outbox st' = (outbox st_init ++ welcome_msg env_echo :: sent)%list
       /\ Forall envelope_ok sent.
Proof.
  split; [reflexivity|].
  destruct (client_session_ends_unregistered env_echo engine_none 7
              ["{}"; "{}"] {[3; 7]} st_init eq_refl)
    as (sent & st' & H1 & _ & H3 & H4).
  exists sent, st'. split; [exact H1|]. split; [exact H3 | exact H4].
Defined.

(** X21. When the welcome message cannot be sent, the connection ends
    with that exception and the client stays in the set of connected
    clients: it was added before the send, and the removal is in a
    'finally' that is not reached. No request is served. *)
Theorem failed_welcome_leaves_client
    (env : Env) (ai_engine : AIEngine) (websocket : nat)
    (messages : list string) (connected_clients : gset nat) (st : State)
    (e : pyexn) :
  send_error env (sends st) = Some e ->
  exists st',
    handle_client env ai_engine websocket messages connected_clients st
    = (Raise e, {[websocket]} ∪ connected_clients, st')
    /\ websocket ∈ ({[websocket]} ∪ connected_clients : gset nat)
    /\ outbox st' = outbox st
    /\ trace st' = trace st.
Proof.
  intros Hs. unfold handle_client, register_client, ws_send. rewrite Hs.
  eexists. split; [reflexivity|].
  split; [apply elem_of_union_l, elem_of_singleton; reflexivity|].
  split; reflexivity.
Qed.

Lemma failed_welcome_leaves_client_witness :
  send_error env_closed (sends st_init)
  = Some (Exn OtherError "no close frame received or sent")
  /\ exists st',
       handle_client env_closed engine_none 7 ["{}"] {[3]} st_init
       = (Raise (Exn OtherError "no close frame received or sent"),
          {[7]} ∪ {[3]}, st')
       /\ outbox st' = outbox st_init.
Proof.
  split; [reflexivity|].
  destruct (failed_welcome_leaves_client env_closed engine_none 7 ["{}"]
              {[3]} st_init _ eq_refl) as (st' & H1 & _ & H3 & _).
  exists st'. split; [exact H1 | exact H3].
Defined.
